(** * The e-commerce dashboard of [dashboard.py]

    A shallow embedding of the aggregations that [main] performs on the
    loaded data frame: the date filter, the four summary metrics, the three
    bar-chart views with their colours, and the RFM table with its three
    top-5 rankings.

    A data frame is a list of rows in file order.  Identifier and label
    columns are strings; timestamps are integers (nanoseconds since the
    epoch, as pandas stores [datetime64[ns]]); the two numeric columns
    ([payment_value], [delivery_time]) are [float64], which is kept behind
    the interface [Float64] and instantiated by the binary64 numbers of the
    machine ([binary64]).

    The operations of pandas are modelled as pandas performs them:
    [groupby] sorts its keys; [sum], [mean] and [max] skip missing values;
    a column is summed pairwise, as numpy does, and a group with
    compensation; dividing two series aligns them on their labels;
    [nsmallest] and [nlargest] keep the first of tied rows.  A label column
    holds no missing value: a missing value enters only through a float
    column or through an operation of the program. *)

From Stdlib Require Import ZArith List String Ascii Bool Lia Permutation.
From Stdlib Require Import Floats.
Import ListNotations.

Set Warnings "-inexact-float".
Local Open Scope Z_scope.
Local Open Scope list_scope.

(** ** The [float64] interface *)

(** What the program and the reductions of pandas use of a [float64]
    column: the literals [0], [-0] and [nan], the conversion of a count,
    [+], [-], [*], [/], the test for a missing value and the comparisons
    [==] and [<]. *)
Class Float64 (F : Type) : Type := {
  fzero : F;
  fnzero : F;
  fnan : F;
  float_of_nat : nat -> F;
  fadd : F -> F -> F;
  fsub : F -> F -> F;
  fmul : F -> F -> F;
  fdiv : F -> F -> F;
  isnan : F -> bool;
  feqb : F -> F -> bool;
  fltb : F -> F -> bool;
  (** [numpy.rint]: the nearest integer, halves to the even one. *)
  frint : F -> F;
  (** The format [",.2f"] of Python. *)
  format_2f : F -> string
}.

(** ** Number formats *)

Definition digit (d : Z) : ascii := ascii_of_nat (48 + Z.to_nat d).

(** The decimal digits of [n >= 0], the last one first. *)
Fixpoint rev_digits (fuel : nat) (n : Z) : list ascii :=
  match fuel with
  | O => []
  | S fuel' =>
      digit (n mod 10) :: (if n <? 10 then [] else rev_digits fuel' (n / 10))
  end.

(** A comma after every third digit that is followed by another one. *)
Fixpoint commas (ds : list ascii) : list ascii :=
  match ds with
  | a :: b :: c :: ((_ :: _) as rest) => a :: b :: c :: ","%char :: commas rest
  | _ => ds
  end.

(** The format [","] of a non-negative integer. *)
Definition format_int (n : Z) : string :=
  string_of_list_ascii
    (rev (commas (rev_digits (S (Z.to_nat (Z.log2 n))) n))).

(** [num / den] rounded to the nearest integer, halves to the even one
    ([0 <= num], [0 < den]). *)
Definition round_half_even (num den : Z) : Z :=
  let q := num / den in
  let r := num mod den in
  if (den <? 2 * r) || ((den =? 2 * r) && Z.odd q) then q + 1 else q.

(** The format [",.2f"] of an amount given in hundredths. *)
Definition format_hundredths (negative : bool) (c : Z) : string :=
  ((if negative then "-" else EmptyString) ++ format_int (c / 100) ++ "."
   ++ String (digit (c mod 100 / 10))
        (String (digit (c mod 10)) EmptyString))%string.

(** ** Series operations of pandas, as far as the program calls them *)

Section Ordering.
Context {A : Type}.
(** [precedes y x]: [y] ranks strictly ahead of [x]. *)
Variable precedes : A -> A -> bool.

(** [x] stood before every element of [l] in the input: it is overtaken
    only by elements that rank strictly ahead of it, so equal ranks keep
    their input order. *)
Fixpoint insert (x : A) (l : list A) : list A :=
  match l with
  | [] => [x]
  | y :: l' => if precedes y x then y :: insert x l' else x :: l
  end.

(** Stable sort ([sort_values(kind="mergesort")], and what [nsmallest] and
    [nlargest] do with [keep="first"]). *)
Definition sort_values (l : list A) : list A := fold_right insert [] l.
End Ordering.

(** [Series.unique()]: the distinct values in order of first appearance. *)
Fixpoint unique (l : list string) : list string :=
  match l with
  | [] => []
  | x :: l' => x :: filter (fun y => negb (String.eqb y x)) (unique l')
  end.

(** The keys of a [groupby]: distinct and sorted. *)
Definition group_keys (l : list string) : list string :=
  sort_values String.ltb (unique l).

(** Number of occurrences of a label. *)
Definition count_label (k : string) (l : list string) : nat :=
  List.length (filter (String.eqb k) l).

(** [Series.value_counts()]: every distinct label with its number of
    occurrences, the largest count first. *)
Definition value_counts (l : list string) : list (string * nat) :=
  sort_values (fun a b => Nat.ltb (snd b) (snd a))
    (map (fun k => (k, count_label k l)) (unique l)).

(** [nsmallest(n, column)] and [nlargest(n, column)] with the default
    [keep="first"]: the first [n] rows of the stable sort on the column. *)
Definition nsmallest {A K : Type} (ltb : K -> K -> bool) (n : nat)
    (column : A -> K) (l : list A) : list A :=
  firstn n (sort_values (fun a b => ltb (column a) (column b)) l).

Definition nlargest {A K : Type} (ltb : K -> K -> bool) (n : nat)
    (column : A -> K) (l : list A) : list A :=
  firstn n (sort_values (fun a b => ltb (column b) (column a)) l).

(** Lookup of a label in a series given as (label, value) pairs. *)
Fixpoint lookup {V : Type} (k : string) (s : list (string * V)) : option V :=
  match s with
  | [] => None
  | (k', v) :: s' => if String.eqb k k' then Some v else lookup k s'
  end.

(** Maximum of a [datetime64] column; [None] is [NaT], the result on an
    empty column. *)
Definition ts_max (l : list Z) : option Z :=
  match l with
  | [] => None
  | t :: l' => Some (fold_left Z.max l' t)
  end.

Definition ns_per_day : Z := 86400 * 1000000000.

(** [.dt.date]: the calendar day of a timestamp, as a day number. *)
Definition dt_date (ts : Z) : Z := ts / ns_per_day.

(** [.dt.days] of a time difference: whole days, rounded down. *)
Definition dt_days (delta : Z) : Z := delta / ns_per_day.

Section Dashboard.
Context {F : Type} `{Float64 F}.

(** *** Float columns *)

Definition notna (x : F) : bool := negb (isnan x).

(** A missing value counts as [0] in a sum. *)
Definition fillna0 (x : F) : F := if isnan x then fzero else x.

(** The summation loop of numpy: the values are added to [res] one after
    the other. *)
Definition sum_loop (res : F) (l : list F) : F := fold_left fadd l res.

(** Eight running sums, one per lane. *)
Fixpoint add_lanes (r v : list F) : list F :=
  match r, v with
  | x :: r', y :: v' => fadd x y :: add_lanes r' v'
  | _, _ => r
  end.

(** While eight values are left, each is added to the sum of its lane. *)
Fixpoint sum_blocks (fuel : nat) (r l : list F) : list F * list F :=
  match fuel with
  | O => (r, l)
  | S fuel' =>
      if Nat.leb 8 (List.length l)
      then sum_blocks fuel' (add_lanes r (firstn 8 l)) (skipn 8 l)
      else (r, l)
  end.

(** The block sum of numpy, for 8 to 128 values: the lanes start with the
    first eight values, are added up in pairs, and the values left over
    are added to the result. *)
Definition sum_unrolled (l : list F) : F :=
  match sum_blocks (List.length l) (firstn 8 l) (skipn 8 l) with
  | ([r0; r1; r2; r3; r4; r5; r6; r7], rest) =>
      sum_loop (fadd (fadd (fadd r0 r1) (fadd r2 r3))
                     (fadd (fadd r4 r5) (fadd r6 r7))) rest
  | (_, _) => sum_loop fnzero l
  end.

(** The pairwise sum of numpy: fewer than 8 values are added to [-0] in
    order, up to 128 go through the block sum, and a longer column is cut
    in two at a multiple of 8 near its middle. *)
Fixpoint pairwise_sum (fuel : nat) (l : list F) : F :=
  let n := List.length l in
  if Nat.ltb n 8 then sum_loop fnzero l
  else if Nat.leb n 128 then sum_unrolled l
  else
    match fuel with
    | O => sum_unrolled l
    | S fuel' =>
        let n2 := (n / 2 - (n / 2) mod 8)%nat in
        fadd (pairwise_sum fuel' (firstn n2 l))
             (pairwise_sum fuel' (skipn n2 l))
    end.

(** [Series.sum()]: the missing values are replaced by [0] and the column
    is reduced by numpy's [add], which adds its pairwise sum to the initial
    value [0]. *)
Definition series_sum (l : list F) : F :=
  fadd fzero (pairwise_sum (List.length l) (map fillna0 l)).

(** [Series.mean()]: that sum over the number of values present, and [nan]
    when there is none. *)
Definition series_mean (l : list F) : F :=
  match List.length (filter notna l) with
  | O => fnan
  | S n => fdiv (series_sum l) (float_of_nat (S n))
  end.

(** One step of the compensated summation of a [groupby]: the running sum
    and the rounding error it has left behind. *)
Definition kahan_step (st : F * F) (val : F) : F * F :=
  let y := fsub val (snd st) in
  let t := fadd (fst st) y in
  let c := fsub (fsub t (fst st)) y in
  (t, if isnan c then fzero else c).

(** The sum of a group ([groupby(...).sum()]): the values present are added
    with compensation, starting at the first of them; a group without a
    value sums to [0]. *)
Definition group_sum (l : list F) : F :=
  match filter notna l with
  | [] => fzero
  | x :: l' => fst (fold_left kahan_step l' (x, fzero))
  end.

(** The mean of a group ([groupby(...).mean()]): the compensated sum over
    the number of values present, and [nan] when there is none. *)
Definition group_mean (l : list F) : F :=
  match List.length (filter notna l) with
  | O => fnan
  | S n => fdiv (group_sum l) (float_of_nat (S n))
  end.

(** The larger of two values present. *)
Definition fmax (m v : F) : F := if fltb m v then v else m.

(** [Series.max()]: the largest value present, [nan] when there is none. *)
Definition series_max (l : list F) : F :=
  match filter notna l with
  | [] => fnan
  | x :: l' => fold_left fmax l' x
  end.

(** The order [nlargest] ranks a float column by: a missing value is
    below every value present, and is therefore listed last. *)
Definition float_ltb (x y : F) : bool :=
  (isnan x && notna y) || fltb x y.

(** *** The data frame *)

Record Row : Type := {
  order_id : string;
  customer_id : string;
  order_purchase_timestamp : Z;
  payment_value : F;
  product_category_name_english : string;
  customer_state : string;
  delivery_time : F;
  order_status : string;
  payment_type : string
}.

Definition DataFrame : Type := list Row.

(** The rows of one group of [groupby(column)]. *)
Definition group (column : Row -> string) (df : DataFrame) (k : string)
    : DataFrame :=
  filter (fun r => String.eqb (column r) k) df.

(** [df.groupby(column).size()]. *)
Definition groupby_size (column : Row -> string) (df : DataFrame)
    : list (string * nat) :=
  map (fun k => (k, List.length (group column df k)))
    (group_keys (map column df)).

(** [a / b] on two series of counts: the labels are aligned on the sorted
    union of both indexes, and a label missing on either side gives
    [nan]. *)
Definition series_div (a b : list (string * nat)) : list (string * F) :=
  map (fun k =>
         (k, match lookup k a, lookup k b with
             | Some x, Some y => fdiv (float_of_nat x) (float_of_nat y)
             | _, _ => fnan
             end))
    (group_keys (map fst a ++ map fst b)).

(** *** Filter (lines 38-49) *)

(** The default of the date input: the first and the last day of the data. *)
Definition default_date_range (all_df : DataFrame) : option (Z * Z) :=
  match all_df with
  | [] => None
  | r :: df' =>
      let ts := map order_purchase_timestamp df' in
      Some (dt_date (fold_left Z.min ts (order_purchase_timestamp r)),
            dt_date (fold_left Z.max ts (order_purchase_timestamp r)))
  end.

Definition mask (date_range : Z * Z) (r : Row) : bool :=
  (fst date_range <=? dt_date (order_purchase_timestamp r))
  && (dt_date (order_purchase_timestamp r) <=? snd date_range).

Definition filtered_df (all_df : DataFrame) (date_range : Z * Z)
    : DataFrame :=
  filter (mask date_range) all_df.

(** *** Metrics (lines 52-60) *)

Definition total_orders (df : DataFrame) : nat :=
  List.length (unique (map order_id df)).

Definition total_revenue (df : DataFrame) : F :=
  series_sum (map payment_value df).

Definition unique_customers (df : DataFrame) : nat :=
  List.length (unique (map customer_id df)).

Definition average_order_value (df : DataFrame) : F :=
  series_mean (map payment_value df).

(** *** Bar charts (lines 66-115) *)

Definition highlight_color : string := "#72BCD4".
Definition base_color : string := "#D3D3D3".

(** The colours of the two ranked charts: the first bar is highlighted. *)
Definition rank_colors (n : nat) : list string :=
  map (fun i => if Nat.eqb i 0 then highlight_color else base_color)
    (seq 0 n).

Definition top_categories (df : DataFrame) : list (string * nat) :=
  nlargest Nat.ltb 5 snd
    (value_counts (map product_category_name_english df)).

Definition colors_tab1 (df : DataFrame) : list string :=
  rank_colors (List.length (top_categories df)).

Definition avg_delivery_time (df : DataFrame) : list (string * F) :=
  nlargest float_ltb 5 snd
    (map (fun k =>
            (k, group_mean (map delivery_time (group customer_state df k))))
       (group_keys (map customer_state df))).

Definition colors_tab2 (df : DataFrame) : list string :=
  rank_colors (List.length (avg_delivery_time df)).

Definition canceled (df : DataFrame) : DataFrame :=
  filter (fun r => String.eqb (order_status r) "canceled") df.

Definition cancellation_rate (df : DataFrame) : list (string * F) :=
  map (fun kv => (fst kv, fmul (snd kv) (float_of_nat 100)))
    (series_div (groupby_size payment_type (canceled df))
                (groupby_size payment_type df)).

Definition max_value (df : DataFrame) : F :=
  series_max (map snd (cancellation_rate df)).

Definition colors_tab3 (df : DataFrame) : list string :=
  map (fun val => if feqb val (max_value df)
                  then highlight_color else base_color)
    (map snd (cancellation_rate df)).

(** *** RFM (lines 121-151) *)

Record Rfm : Type := {
  rfm_customer_id : string;
  max_order_timestamp : Z;
  frequency : nat;
  monetary : F;
  recency : Z
}.

(** One row of [groupby("customer_id").agg(...)] with its [recency]
    column; [recent_date] is the latest purchase of the whole frame. *)
Definition rfm_row (df : DataFrame) (recent_date : Z) (k : string) : Rfm :=
  let g := group customer_id df k in
  let last := match ts_max (map order_purchase_timestamp g) with
              | Some t => t
              | None => recent_date
              end in
  {| rfm_customer_id := k;
     max_order_timestamp := last;
     frequency := List.length (unique (map order_id g));
     monetary := group_sum (map payment_value g);
     recency := dt_days (recent_date - last) |}.

(** On an empty frame [recent_date] is [NaT] and the table has no row. *)
Definition rfm_df (df : DataFrame) : list Rfm :=
  match ts_max (map order_purchase_timestamp df) with
  | None => []
  | Some recent_date =>
      map (rfm_row df recent_date) (group_keys (map customer_id df))
  end.

(** The three top-5 tables, each with its two columns. *)
Definition recency_df (df : DataFrame) : list (string * Z) :=
  map (fun r => (rfm_customer_id r, recency r))
    (nsmallest Z.ltb 5 recency (rfm_df df)).

Definition frequency_df (df : DataFrame) : list (string * nat) :=
  map (fun r => (rfm_customer_id r, frequency r))
    (nlargest Nat.ltb 5 frequency (rfm_df df)).

(** [round(2)] of numpy: scale by 100, round to the integer, scale back. *)
Definition round2 (x : F) : F :=
  fdiv (frint (fmul x (float_of_nat 100))) (float_of_nat 100).

Definition monetary_df (df : DataFrame) : list (string * F) :=
  map (fun r => (rfm_customer_id r, round2 (monetary r)))
    (nlargest float_ltb 5 monetary (rfm_df df)).

(** *** The page *)

Record Metrics : Type := {
  m_total_orders : nat;
  m_total_revenue : F;
  m_unique_customers : nat;
  m_average_order_value : F
}.

Definition metrics (df : DataFrame) : Metrics :=
  {| m_total_orders := total_orders df;
     m_total_revenue := total_revenue df;
     m_unique_customers := unique_customers df;
     m_average_order_value := average_order_value df |}.

(** The four cards, as [st.metric] receives them: label and text. *)
Definition metric_cards (df : DataFrame) : list (string * string) :=
  [ ("Total Orders", format_int (Z.of_nat (total_orders df)));
    ("Total Revenue", "$" ++ format_2f (total_revenue df));
    ("Unique Customers", format_int (Z.of_nat (unique_customers df)));
    ("Average Order Value", "$" ++ format_2f (average_order_value df))
  ]%string.

Record Page : Type := {
  p_metrics : list (string * string);
  p_tab1 : list (string * nat) * list string;
  p_tab2 : list (string * F) * list string;
  p_tab3 : list (string * F) * list string;
  p_recency : list (string * Z);
  p_frequency : list (string * nat);
  p_monetary : list (string * F);
  p_histograms : list Rfm
}.

(** [px.bar(x=..., y=...)] without a data frame: two columns without a
    value are taken for lists of column names, which [px.bar] refuses with
    [ValueError]; otherwise the figure has one bar per value, and
    [update_traces] gives it its colours. *)
Definition px_bar {A B : Type} (bars : list (A * B)) (colors : list string)
    : option (list (A * B) * list string) :=
  match bars with
  | [] => None
  | _ :: _ => Some (bars, colors)
  end.

(** How a run of the script ends: at the error banner of line 28; with
    the exception of [st.sidebar.date_input] (line 39); with the
    [ValueError] of the [px.bar] of the given line, under the four cards
    already shown; or with the whole page. *)
Inductive Rendered : Type :=
| FileNotFound
| DateInputError
| BarChartError (line : nat) (cards : list (string * string))
| Dashboard (p : Page).

(** [main]: [load_data] fails with [FileNotFoundError], and the page stops
    at the error banner; or it gives a frame without a row, whose first and
    last day are missing, and the date input raises; or it gives the frame
    every view is computed from, one after the other, until a [px.bar]
    raises.  [date_range] is what the date input returns once both of its
    bounds are chosen. *)
Definition main (load_data : option DataFrame) (date_range : Z * Z)
    : Rendered :=
  match load_data with
  | None => FileNotFound
  | Some all_df =>
      match default_date_range all_df with
      | None => DateInputError
      | Some _ =>
          let df := filtered_df all_df date_range in
          let cards := metric_cards df in
          match px_bar (top_categories df) (colors_tab1 df) with
          | None => BarChartError 76 cards
          | Some tab1 =>
              match px_bar (avg_delivery_time df) (colors_tab2 df) with
              | None => BarChartError 91 cards
              | Some tab2 =>
                  match px_bar (cancellation_rate df) (colors_tab3 df) with
                  | None => BarChartError 108 cards
                  | Some tab3 =>
                      Dashboard
                        {| p_metrics := cards;
                           p_tab1 := tab1;
                           p_tab2 := tab2;
                           p_tab3 := tab3;
                           p_recency := recency_df df;
                           p_frequency := frequency_df df;
                           p_monetary := monetary_df df;
                           p_histograms := rfm_df df |}
                  end
              end
          end
      end
  end.
End Dashboard.

Arguments Row F : clear implicits.
Arguments Rfm F : clear implicits.
Arguments DataFrame F : clear implicits.
Arguments Metrics F : clear implicits.
Arguments Page F : clear implicits.
Arguments Rendered F : clear implicits.
Arguments FileNotFound {F}.
Arguments DateInputError {F}.
Arguments BarChartError {F} line cards.

(** ** The binary64 instance of [Float64] *)

Definition two52 : float := 4503599627370496%float.

(** Below [2^52] in magnitude, adding and subtracting [2^52] rounds to the
    integer in the rounding mode of the machine (to nearest, halves to
    even); from [2^52] on every number is an integer. *)
Definition b64_rint (x : float) : float :=
  if PrimFloat.ltb (PrimFloat.abs x) two52 then
    let r := PrimFloat.sub (PrimFloat.add (PrimFloat.abs x) two52) two52 in
    if PrimFloat.get_sign x then PrimFloat.opp r else r
  else x.

(** The exact value [m * 2^e] in hundredths, rounded to the nearest. *)
Definition b64_format_2f (x : float) : string :=
  match Prim2SF x with
  | S754_nan => "nan"
  | S754_infinity s => if s then "-inf" else "inf"
  | S754_zero s => format_hundredths s 0
  | S754_finite s m e =>
      format_hundredths s
        (if 0 <=? e then Z.pos m * 100 * 2 ^ e
         else round_half_even (Z.pos m * 100) (2 ^ (- e)))
  end.

(** The machine's binary64 numbers, with the operations of IEEE 754. *)
#[export] Instance binary64 : Float64 float := {|
  fzero := PrimFloat.zero;
  fnzero := PrimFloat.neg_zero;
  fnan := PrimFloat.nan;
  float_of_nat n := PrimFloat.of_uint63 (Uint63.of_Z (Z.of_nat n));
  fadd := PrimFloat.add;
  fsub := PrimFloat.sub;
  fmul := PrimFloat.mul;
  fdiv := PrimFloat.div;
  isnan := PrimFloat.is_nan;
  feqb := PrimFloat.eqb;
  fltb := PrimFloat.ltb;
  frint := b64_rint;
  format_2f := b64_format_2f
|}.

(** ** Sample frames *)

Definition day (d : Z) : Z := d * ns_per_day.
Definition hour (h : Z) : Z := h * 3600 * 1000000000.

(** The two orders of customer X, on 2020-01-01 and 2020-01-10 (days 18262
    and 18271 of the epoch); the columns the example leaves open are
    arguments. *)
Definition two_orders {F : Type} (p1 p2 : F) (state : string)
    (dt1 dt2 : F) (pay1 pay2 : string) : DataFrame F :=
  [ {| order_id := "A"; customer_id := "X";
       order_purchase_timestamp := day 18262; payment_value := p1;
       product_category_name_english := "toys"; customer_state := state;
       delivery_time := dt1; order_status := "delivered";
       payment_type := pay1 |};
    {| order_id := "B"; customer_id := "X";
       order_purchase_timestamp := day 18271; payment_value := p2;
       product_category_name_english := "toys"; customer_state := state;
       delivery_time := dt2; order_status := "canceled";
       payment_type := pay2 |} ].

Definition order {F : Type} (oid cid : string) (ts : Z) (p : F)
    (cat st : string) (dt : F) (status pay : string) : Row F :=
  {| order_id := oid; customer_id := cid; order_purchase_timestamp := ts;
     payment_value := p; product_category_name_english := cat;
     customer_state := st; delivery_time := dt; order_status := status;
     payment_type := pay |}.

(** The same frame with the open columns filled in. *)
Definition sample_frame : DataFrame float :=
  two_orders 50%float 30%float "SP" 3%float 4%float "credit_card" "boleto".

(** Date ranges over [sample_frame]: its first day, its whole span (the
    default of the date input), and the days between its two orders. *)
Definition first_day : Z * Z := (18262, 18262).
Definition full_span : Z * Z := (18262, 18271).
Definition quiet_days : Z * Z := (18263, 18270).

(** Two customers who last bought on the same day, one hour apart. *)
Definition same_day_orders : DataFrame float :=
  [ order "A" "X" (day 18271 + hour 9) 50%float "toys" "SP" 3%float
      "delivered" "boleto";
    order "B" "Y" (day 18271 + hour 10) 30%float "toys" "SP" 4%float
      "delivered" "boleto" ].


(** One delivered order: a payment type with rows and no cancellation. *)
Definition no_cancellation : DataFrame float :=
  [ order "A" "X" (day 18262) 50%float "toys" "SP" 3%float
      "delivered" "credit_card" ].

(** Two delivered orders, one paid by boleto and one by credit card: two
    payment types with rows, and no cancellation at all. *)
Definition undisputed_orders : DataFrame float :=
  [ order "A" "X" (day 18262) 50%float "toys" "SP" 3%float
      "delivered" "credit_card";
    order "B" "Y" (day 18263) 30%float "toys" "SP" 4%float
      "delivered" "boleto" ].

(** Ties everywhere: toys and books are sold three times each, both states
    have the same mean delivery time, boleto and credit_card both have one
    cancellation in two orders (voucher: one in four), and the customers
    X and Y have the same recency, frequency and monetary value. *)
Definition tied_frame : DataFrame float :=
  [ order "A" "Y" (day 18262) 10%float "toys" "SP" 5%float
      "canceled" "credit_card";
    order "B" "X" (day 18262) 10%float "books" "RJ" 5%float
      "delivered" "credit_card";
    order "C" "Z" (day 18262) 10%float "toys" "SP" 5%float
      "canceled" "boleto";
    order "D" "Z" (day 18262) 10%float "books" "RJ" 5%float
      "delivered" "boleto";
    order "E" "Z" (day 18262) 10%float "toys" "SP" 5%float
      "canceled" "voucher";
    order "F" "Z" (day 18262) 10%float "books" "RJ" 5%float
      "delivered" "voucher";
    order "G" "Z" (day 18262) 10%float "garden" "SP" 5%float
      "delivered" "voucher";
    order "H" "Z" (day 18262) 10%float "garden" "RJ" 5%float
      "delivered" "voucher" ].

(** Seven customers whose order in the RFM table is none of the three
    rankings: c1 bought three days before the latest purchase, c2 made
    it, and the others bought the day before; c6 has two orders; c3 paid
    20, and every other customer 10 in all. *)
Definition ranked_frame : DataFrame float :=
  [ order "A1" "c1" (day 18268) 10%float "toys" "SP" 5%float
      "delivered" "boleto";
    order "A2" "c2" (day 18271) 10%float "toys" "SP" 5%float
      "delivered" "boleto";
    order "A3" "c3" (day 18270) 20%float "toys" "SP" 5%float
      "delivered" "boleto";
    order "A4" "c4" (day 18270) 10%float "toys" "SP" 5%float
      "delivered" "boleto";
    order "A5" "c5" (day 18270) 10%float "toys" "SP" 5%float
      "delivered" "boleto";
    order "A6" "c6" (day 18270) 5%float "toys" "SP" 5%float
      "delivered" "boleto";
    order "B6" "c6" (day 18270) 5%float "toys" "SP" 5%float
      "delivered" "boleto";
    order "A7" "c7" (day 18270) 10%float "toys" "SP" 5%float
      "delivered" "boleto" ].

(** The RFM records of the customers c3 and c4 of [ranked_frame]. *)
Definition ranked_c3 : Rfm float :=
  {| rfm_customer_id := "c3"; max_order_timestamp := day 18270;
     frequency := 1; monetary := 20%float; recency := 1 |}.

Definition ranked_c4 : Rfm float :=
  {| rfm_customer_id := "c4"; max_order_timestamp := day 18270;
     frequency := 1; monetary := 10%float; recency := 1 |}.

(** The records of the recency table of [ranked_frame]. *)
Definition ranked_top : list (Rfm float) :=
  nsmallest Z.ltb 5 recency (rfm_df ranked_frame).

(** The RFM record of customer X in [sample_frame]. *)
Definition sample_X : Rfm float :=
  {| rfm_customer_id := "X"; max_order_timestamp := day 18271;
     frequency := 2; monetary := 80%float; recency := 0 |}.

(** ** Laws of the float operations *)

(** What the comparisons of IEEE 754 satisfy: [<] is a strict order, a
    missing value is below nothing and above nothing, and [<] excludes
    [==]. *)
Class FloatOrder (F : Type) `{Float64 F} : Prop := {
  fltb_irrefl : forall x : F, fltb x x = false;
  fltb_trans : forall x y z : F,
    fltb x y = true -> fltb y z = true -> fltb x z = true;
  fltb_nan_r : forall x y : F, isnan y = true -> fltb x y = false;
  fltb_neq : forall x y : F, fltb x y = true -> feqb x y = false
}.

(** What the ranking order of a float column satisfies: it is a strict
    order in which values that do not outrank one another form classes. *)
Class FloatRank (F : Type) `{Float64 F} : Prop := {
  float_ltb_asym : forall x y : F,
    float_ltb x y = true -> float_ltb y x = false;
  float_ltb_negtrans : forall x y z : F,
    float_ltb x y = false -> float_ltb y z = false -> float_ltb x z = false
}.

(** What [==] and not-a-number satisfy in IEEE 754: a value present equals
    itself, nothing equals a missing value, and a product with a missing
    value is missing. *)
Class FloatEq (F : Type) `{Float64 F} : Prop := {
  feqb_refl : forall x : F, isnan x = false -> feqb x x = true;
  feqb_nan_r : forall x y : F, isnan y = true -> feqb x y = false;
  isnan_fnan : isnan (fnan : F) = true;
  isnan_fmul_nan : forall y : F, isnan (fmul fnan y) = true
}.

(** The test for not-a-number and the ranking order on the specification
    of binary64. *)
Definition sf_isnan (s : spec_float) : bool :=
  match s with S754_nan => true | _ => false end.

Definition sf_rank_ltb (s t : spec_float) : bool :=
  (sf_isnan s && negb (sf_isnan t)) || SFltb s t.

(** ** Vocabulary of the statements *)

(** [before a b l]: some occurrence of [a] stands ahead of one of [b]. *)
Definition before {A : Type} (a b : A) (l : list A) : Prop :=
  exists l1 l2 l3, l = l1 ++ a :: l2 ++ b :: l3.

(** [Kept P l l']: [l'] is [l] with exactly the elements outside [P] left
    out; order and repetitions are those of [l]. *)
Inductive Kept {A : Type} (P : A -> Prop) : list A -> list A -> Prop :=
| Kept_nil : Kept P [] []
| Kept_keep x l l' : P x -> Kept P l l' -> Kept P (x :: l) (x :: l')
| Kept_drop x l l' : ~ P x -> Kept P l l' -> Kept P (x :: l) l'.

(** The purchase day of a row. *)
Definition purchase_date {F : Type} (r : Row F) : Z :=
  dt_date (order_purchase_timestamp r).

Definition in_range {F : Type} (date_range : Z * Z) (r : Row F) : Prop :=
  fst date_range <= purchase_date r <= snd date_range.

(** Number of rows of a payment type, and of canceled rows among them. *)
Definition rows_of {F : Type} (df : DataFrame F) (k : string) : nat :=
  List.length (group payment_type df k).

Definition canceled_rows_of {F : Type} (df : DataFrame F) (k : string)
    : nat :=
  List.length (group payment_type (canceled df) k).

(** The payment view in the words of the specification: the rate of a
    payment type is the number of its canceled rows over the number of its
    rows, times 100; there is a bar for every payment type with rows, and
    the bars at the maximum rate are highlighted. *)
Definition spec_cancellation_rate {F : Type} `{Float64 F} (df : DataFrame F)
    (k : string) : F :=
  fmul (fdiv (float_of_nat (canceled_rows_of df k))
             (float_of_nat (rows_of df k)))
       (float_of_nat 100).

Definition spec_payment_colors {F : Type} `{Float64 F} (df : DataFrame F)
    : list string :=
  let rates :=
    map (spec_cancellation_rate df) (group_keys (map payment_type df)) in
  map (fun val => if feqb val (series_max rates)
                  then highlight_color else base_color)
    rates.

(** [ranks_ahead precedes l a b]: in a ranking of the rows of [l] the row
    [a] wins over the row [b]: it ranks strictly ahead of [b], or [b] does
    not rank ahead of it either and [a] is the first of the two in [l]. *)
Definition ranks_ahead {A : Type} (precedes : A -> A -> bool) (l : list A)
    (a b : A) : Prop :=
  precedes a b = true \/ (precedes b a = false /\ before a b l).

(** [ordered precedes l]: no row of [l] ranks strictly ahead of an earlier
    one. *)
Definition ordered {A : Type} (precedes : A -> A -> bool) (l : list A)
    : Prop :=
  forall a b, before a b l -> precedes b a = false.

(** * Properties *)

(** ** Sorting *)

Section OrderingFacts.
Context {A : Type} (precedes : A -> A -> bool).

Lemma insert_perm (x : A) (l : list A) :
  Permutation (insert precedes x l) (x :: l).
Proof.
  induction l as [|y l IH]; simpl.
  - apply Permutation_refl.
  - destruct (precedes y x).
    + apply perm_trans with (y :: x :: l).
      * apply perm_skip, IH.
      * apply perm_swap.
    + apply Permutation_refl.
Qed.

Lemma sort_values_perm (l : list A) : Permutation (sort_values precedes l) l.
Proof.
  induction l as [|x l IH]; simpl.
  - apply perm_nil.
  - eapply perm_trans; [apply insert_perm|]. apply perm_skip, IH.
Qed.

Lemma sort_values_In (l : list A) (x : A) :
  In x (sort_values precedes l) <-> In x l.
Proof.
  split; apply Permutation_in;
    [|apply Permutation_sym]; apply sort_values_perm.
Qed.

Lemma sort_values_length (l : list A) :
  List.length (sort_values precedes l) = List.length l.
Proof. apply Permutation_length, sort_values_perm. Qed.

Lemma sort_values_NoDup (l : list A) :
  NoDup l -> NoDup (sort_values precedes l).
Proof.
  intro Hnd. eapply Permutation_NoDup; [|exact Hnd].
  apply Permutation_sym, sort_values_perm.
Qed.

(** Where [insert] puts its element: behind a prefix that ranks strictly
    ahead of it, and in front of an element that does not. *)
Lemma insert_split (x : A) (l : list A) :
  exists l1 l2,
    l = l1 ++ l2 /\ insert precedes x l = l1 ++ x :: l2 /\
    Forall (fun y => precedes y x = true) l1 /\
    (forall y, hd_error l2 = Some y -> precedes y x = false).
Proof.
  induction l as [|y l IH]; simpl.
  - exists [], []. repeat split; [constructor|discriminate].
  - destruct (precedes y x) eqn:Hyx.
    + destruct IH as (l1 & l2 & -> & -> & Hall & Hhd).
      exists (y :: l1), l2. repeat split; [|exact Hhd].
      constructor; assumption.
    + exists [], (y :: l). repeat split; [constructor|].
      simpl. intros y' [= <-]. exact Hyx.
Qed.
End OrderingFacts.

(** ** Relative position in a list *)

Section BeforeFacts.
Context {A : Type}.
Implicit Types (a b x : A) (l : list A).

Lemma before_cons_head a b l : In b l -> before a b (a :: l).
Proof.
  intro Hin. apply in_split in Hin as (l2 & l3 & ->).
  exists [], l2, l3. reflexivity.
Qed.

Lemma before_cons x a b l : before a b l -> before a b (x :: l).
Proof.
  intros (l1 & l2 & l3 & ->). exists (x :: l1), l2, l3. reflexivity.
Qed.

Lemma before_cons_inv x a b l :
  before a b (x :: l) -> (x = a /\ In b l) \/ before a b l.
Proof.
  intros (l1 & l2 & l3 & Heq). destruct l1 as [|y l1]; simpl in Heq.
  - injection Heq as -> ->. left. split; [reflexivity|].
    apply in_or_app. right. left. reflexivity.
  - injection Heq as -> ->. right. exists l1, l2, l3. reflexivity.
Qed.

Lemma before_In_l a b l : before a b l -> In a l.
Proof.
  intros (l1 & l2 & l3 & ->). apply in_or_app. right. left. reflexivity.
Qed.

Lemma before_In_r a b l : before a b l -> In b l.
Proof.
  intros (l1 & l2 & l3 & ->). apply in_or_app. right. right.
  apply in_or_app. right. left. reflexivity.
Qed.

Lemma before_app_l a b l l' : before a b l -> before a b (l ++ l').
Proof.
  intros (l1 & l2 & l3 & ->). exists l1, l2, (l3 ++ l').
  repeat (rewrite <- app_assoc; simpl). reflexivity.
Qed.

Lemma before_app_r a b l l' : before a b l' -> before a b (l ++ l').
Proof.
  intro Hb. induction l as [|x l IH]; simpl; [assumption|].
  apply before_cons, IH.
Qed.

Lemma before_app_cross a b l l' : In a l -> In b l' -> before a b (l ++ l').
Proof.
  intros Ha Hb. apply in_split in Ha as (l1 & l2 & ->).
  apply in_split in Hb as (l3 & l4 & ->).
  exists l1, (l2 ++ l3), l4.
  repeat (rewrite <- app_assoc; simpl). reflexivity.
Qed.

Lemma before_app_inv a b l l' :
  before a b (l ++ l') ->
  before a b l \/ before a b l' \/ (In a l /\ In b l').
Proof.
  induction l as [|x l IH]; simpl; intro Hb.
  - right. left. assumption.
  - apply before_cons_inv in Hb as [[-> Hin]|Hb].
    + apply in_app_or in Hin as [Hin|Hin].
      * left. apply before_cons_head, Hin.
      * right. right. split; [left; reflexivity|assumption].
    + destruct (IH Hb) as [H1|[H2|[H3 H4]]].
      * left. apply before_cons, H1.
      * right. left. assumption.
      * right. right. split; [right|]; assumption.
Qed.

(** Inserting an element anywhere keeps the others in their order. *)
Lemma before_insert_mid x a b l1 l2 :
  before a b (l1 ++ l2) -> before a b (l1 ++ x :: l2).
Proof.
  intro Hb. apply before_app_inv in Hb as [H1|[H2|[H3 H4]]].
  - apply before_app_l, H1.
  - apply before_app_r, before_cons, H2.
  - apply before_app_cross; [assumption|right; assumption].
Qed.

Lemma before_map {B : Type} (f : A -> B) a b l :
  before a b l -> before (f a) (f b) (map f l).
Proof.
  intros (l1 & l2 & l3 & ->). exists (map f l1), (map f l2), (map f l3).
  rewrite map_app. simpl. rewrite map_app. reflexivity.
Qed.

(** Of two different elements of a list one stands before the other, and,
    when no element is repeated, only one of them does. *)
Lemma before_total a b l :
  In a l -> In b l -> a <> b -> before a b l \/ before b a l.
Proof.
  intros Ha Hb Hne. induction l as [|x l IH]; [contradiction|].
  destruct Ha as [->|Ha], Hb as [->|Hb].
  - congruence.
  - left. apply before_cons_head, Hb.
  - right. apply before_cons_head, Ha.
  - destruct (IH Ha Hb) as [Hab|Hba]; [left|right]; apply before_cons;
      assumption.
Qed.

Lemma before_asym a b l : NoDup l -> before a b l -> ~ before b a l.
Proof.
  induction l as [|x l IH]; intros Hnd Hab Hba.
  - destruct Hab as (l1 & l2 & l3 & Heq). destruct l1; discriminate.
  - inversion Hnd as [|? ? Hx Hnd']; subst.
    apply before_cons_inv in Hab as [[-> Hb]|Hab];
      apply before_cons_inv in Hba as [[-> Ha]|Hba].
    + contradiction.
    + apply Hx. eapply before_In_r, Hba.
    + apply Hx. eapply before_In_r, Hab.
    + apply (IH Hnd' Hab Hba).
Qed.

Lemma before_firstn_inv n a b l : before a b (firstn n l) -> before a b l.
Proof.
  intro Hb. rewrite <- (firstn_skipn n l). apply before_app_l, Hb.
Qed.

(** A prefix that holds [b] holds whatever stood before [b], when no
    element is repeated. *)
Lemma before_firstn n a b l :
  NoDup l -> before a b l -> In b (firstn n l) -> before a b (firstn n l).
Proof.
  intros Hnd Hb. revert n. induction l as [|x l IH]; intros n Hin.
  - destruct n; contradiction.
  - destruct n as [|n]; [contradiction|]. simpl in *.
    inversion Hnd as [|? ? Hx Hnd']; subst.
    apply before_cons_inv in Hb as [[-> Hbl]|Hb].
    + destruct Hin as [->|Hin]; [contradiction|].
      apply before_cons_head, Hin.
    + destruct Hin as [->|Hin].
      * exfalso. apply Hx. eapply before_In_r, Hb.
      * apply before_cons, IH; assumption.
Qed.
End BeforeFacts.

(** Stability: rows that neither ranks ahead of the other keep the order
    they had. *)
Lemma sort_values_stable {A : Type} (precedes : A -> A -> bool) a b l :
  precedes b a = false ->
  before a b l -> before a b (sort_values precedes l).
Proof.
  intros Htie. induction l as [|x l IH]; intro Hb.
  - destruct Hb as (l1 & l2 & l3 & Heq). destruct l1; discriminate.
  - simpl. destruct (insert_split precedes x (sort_values precedes l))
      as (l1 & l2 & Heq & -> & Hall & _).
    apply before_cons_inv in Hb as [[-> Hin]|Hb].
    + apply (sort_values_In precedes) in Hin. rewrite Heq in Hin.
      apply in_app_or in Hin as [Hin|Hin].
      * rewrite Forall_forall in Hall. apply Hall in Hin. congruence.
      * apply before_app_r, before_cons_head, Hin.
    + apply before_insert_mid. rewrite <- Heq. apply IH, Hb.
Qed.

(** ** Distinct values and group keys *)

Lemma unique_In (l : list string) (x : string) : In x (unique l) <-> In x l.
Proof.
  induction l as [|y l IH]; simpl; [tauto|].
  rewrite filter_In, IH, negb_true_iff, String.eqb_neq.
  destruct (string_dec y x) as [->|Hne]; [tauto|].
  split.
  - intros [Heq|[Hin _]]; [left|right]; assumption.
  - intros [Heq|Hin]; [left; assumption|right].
    split; [assumption|congruence].
Qed.

Lemma unique_NoDup (l : list string) : NoDup (unique l).
Proof.
  induction l as [|y l IH]; simpl; constructor.
  - rewrite filter_In, negb_true_iff, String.eqb_neq. intros [_ Hne].
    apply Hne. reflexivity.
  - apply NoDup_filter, IH.
Qed.

Lemma unique_nonempty (l : list string) : l <> [] -> unique l <> [].
Proof. destruct l; [congruence|discriminate]. Qed.

Lemma unique_length_incl (l1 l2 : list string) :
  incl l1 l2 -> (List.length (unique l1) <= List.length (unique l2))%nat.
Proof.
  intro Hincl. apply NoDup_incl_length; [apply unique_NoDup|].
  intros x Hx. apply unique_In, Hincl, unique_In, Hx.
Qed.

Lemma group_keys_In (l : list string) (x : string) :
  In x (group_keys l) <-> In x l.
Proof. unfold group_keys. rewrite sort_values_In. apply unique_In. Qed.

Lemma group_keys_NoDup (l : list string) : NoDup (group_keys l).
Proof. apply sort_values_NoDup, unique_NoDup. Qed.

Lemma group_keys_length (l : list string) :
  List.length (group_keys l) = List.length (unique l).
Proof. apply sort_values_length. Qed.

(** ** The date filter *)

Section Filter.
Context {F : Type} `{Float64 F}.
Implicit Types (all_df df : DataFrame F) (r : Row F).

Lemma mask_spec date_range r :
  mask date_range r = true <-> in_range date_range r.
Proof.
  unfold mask, in_range, purchase_date.
  rewrite andb_true_iff, !Z.leb_le. tauto.
Qed.

Lemma filtered_df_In all_df date_range r :
  In r (filtered_df all_df date_range) <->
  In r all_df /\ in_range date_range r.
Proof. unfold filtered_df. rewrite filter_In, mask_spec. tauto. Qed.

Lemma filtered_df_incl all_df (r1 r2 : Z * Z) :
  (forall d, fst r1 <= d <= snd r1 -> fst r2 <= d <= snd r2) ->
  incl (filtered_df all_df r1) (filtered_df all_df r2).
Proof.
  intros Hsub r Hin. apply filtered_df_In in Hin as [Hin Hr].
  apply filtered_df_In. split; [assumption|]. apply Hsub, Hr.
Qed.

Lemma filtered_df_outside all_df date_range :
  (forall r, In r all_df -> ~ in_range date_range r) ->
  filtered_df all_df date_range = [].
Proof.
  intro Hout. induction all_df as [|r df IH]; [reflexivity|].
  unfold filtered_df in *. simpl. destruct (mask date_range r) eqn:Hm.
  - apply mask_spec in Hm. exfalso. apply (Hout r); [left; reflexivity|].
    exact Hm.
  - apply IH. intros r' Hin. apply Hout. right. exact Hin.
Qed.

(** C2.  The filter returns exactly the records whose purchase date lies
    between the two bounds, both included: the frame is walked in order,
    every record inside the range is kept and every record outside it is
    dropped; so a record is in the result if and only if it is in the
    frame and its date [d] satisfies [min <= d <= max]. *)
Theorem filter_keeps_exactly_the_range (all_df : DataFrame F)
    (date_range : Z * Z) :
  Kept (in_range date_range) all_df (filtered_df all_df date_range) /\
  (forall r, In r (filtered_df all_df date_range) <->
             In r all_df /\
             fst date_range <= purchase_date r <= snd date_range).
Proof.
  split; [|intro r; apply filtered_df_In].
  induction all_df as [|r df IH]; [constructor|].
  unfold filtered_df in *. simpl. destruct (mask date_range r) eqn:Hm.
  - apply Kept_keep; [apply mask_spec, Hm | exact IH].
  - apply Kept_drop; [|exact IH].
    rewrite <- mask_spec, Hm. discriminate.
Qed.

(** C6.  Widening the date range never decreases Total Orders nor Unique
    Customers: when every date of the range [r1] is a date of the range
    [r2], both counts over the subset of [r2] are at least the counts over
    the subset of [r1]. *)
Theorem widening_never_decreases_counts (all_df : DataFrame F)
    (r1 r2 : Z * Z) :
  (forall d, fst r1 <= d <= snd r1 -> fst r2 <= d <= snd r2) ->
  (total_orders (filtered_df all_df r1)
     <= total_orders (filtered_df all_df r2))%nat /\
  (unique_customers (filtered_df all_df r1)
     <= unique_customers (filtered_df all_df r2))%nat.
Proof.
  intro Hsub. pose proof (filtered_df_incl all_df r1 r2 Hsub) as Hincl.
  split; apply unique_length_incl; apply incl_map, Hincl.
Qed.
End Filter.

(** The first day of [sample_frame] alone against its whole span: one order
    against two. *)
Lemma widening_never_decreases_counts_sample :
  total_orders (filtered_df sample_frame first_day) = 1%nat /\
  total_orders (filtered_df sample_frame full_span) = 2%nat /\
  (total_orders (filtered_df sample_frame first_day)
     <= total_orders (filtered_df sample_frame full_span))%nat /\
  (unique_customers (filtered_df sample_frame first_day)
     <= unique_customers (filtered_df sample_frame full_span))%nat.
Proof.
  split; [vm_compute; reflexivity|]. split; [vm_compute; reflexivity|].
  apply (widening_never_decreases_counts sample_frame
           first_day full_span).
  simpl. intros d Hd. lia.
Defined.

(** ** The laws hold in binary64 *)

Lemma SFcompare_refl (s : spec_float) :
  SFcompare s s = Some Eq \/ s = S754_nan.
Proof.
  destruct s as [b|b| |b m e]; simpl; auto; left.
  - destruct b; reflexivity.
  - rewrite Z.compare_refl.
    change (PosDef.Pos.compare_cont Eq m m) with (Pos.compare m m).
    rewrite Pos.compare_refl. destruct b; reflexivity.
Qed.

Lemma SFltb_trans (x y z : spec_float) :
  SFltb x y = true -> SFltb y z = true -> SFltb x z = true.
Proof.
  unfold SFltb.
  destruct x as [sx|sx| |sx mx ex], y as [sy|sy| |sy my ey],
           z as [sz|sz| |sz mz ez];
    simpl; try discriminate;
    try destruct sx; try destruct sy; try destruct sz;
    simpl; try discriminate; try reflexivity.
  all: change (PosDef.Pos.compare_cont Eq ?a ?b) with (Pos.compare a b).
  all: destruct (Z.compare_spec ex ey), (Z.compare_spec ey ez),
         (Z.compare_spec ex ez);
       simpl; try discriminate; try reflexivity; try lia.
  all: destruct (Pos.compare_spec mx my), (Pos.compare_spec my mz),
         (Pos.compare_spec mx mz);
       simpl; try discriminate; try reflexivity; try lia.
Qed.

Lemma is_nan_Prim2SF (x : float) :
  PrimFloat.is_nan x = true -> Prim2SF x = S754_nan.
Proof.
  unfold PrimFloat.is_nan. rewrite FloatAxioms.eqb_spec. unfold SFeqb.
  destruct (SFcompare_refl (Prim2SF x)) as [-> | ->];
    [discriminate|reflexivity].
Qed.

#[export] Instance binary64_order : FloatOrder float.
Proof.
  split; simpl; intros.
  - rewrite FloatAxioms.ltb_spec. unfold SFltb.
    destruct (SFcompare_refl (Prim2SF x)) as [-> | ->]; reflexivity.
  - rewrite FloatAxioms.ltb_spec in *. eapply SFltb_trans; eassumption.
  - rewrite FloatAxioms.ltb_spec, (is_nan_Prim2SF y) by assumption.
    unfold SFltb. destruct (Prim2SF x); reflexivity.
  - rewrite FloatAxioms.ltb_spec in *. rewrite FloatAxioms.eqb_spec.
    unfold SFltb, SFeqb in *.
    destruct (SFcompare (Prim2SF x) (Prim2SF y)) as [[]|]; congruence.
Qed.

(** ** The payment view *)

Section Payment.
Context {F : Type} `{Float64 F} `{!FloatOrder F}.

Lemma fold_max_mono (l : list F) (x u : F) :
  fltb x u = false -> fltb (fold_left fmax l x) u = false.
Proof.
  revert x. induction l as [|v l IH]; intros x Hx; simpl; [exact Hx|].
  apply IH. unfold fmax. destruct (fltb x v) eqn:Hxv; [|exact Hx].
  destruct (fltb v u) eqn:Hvu; [|reflexivity].
  rewrite (fltb_trans x v u Hxv Hvu) in Hx. discriminate.
Qed.

Lemma fold_max_upper (l : list F) (x u : F) :
  In u l -> fltb (fold_left fmax l x) u = false.
Proof.
  revert x. induction l as [|v l IH]; intros x Hin; [contradiction|].
  simpl. destruct Hin as [->|Hin]; [|apply IH, Hin].
  apply fold_max_mono. unfold fmax.
  destruct (fltb x u) eqn:Hxu; [apply fltb_irrefl|exact Hxu].
Qed.

(** No value of the series is above its [max()]. *)
Lemma series_max_upper (l : list F) (u : F) :
  In u l -> fltb (series_max l) u = false.
Proof.
  intro Hin. destruct (isnan u) eqn:Hu; [apply fltb_nan_r, Hu|].
  assert (Hin' : In u (filter notna l)).
  { apply filter_In. split; [exact Hin|]. unfold notna. rewrite Hu.
    reflexivity. }
  unfold series_max. destruct (filter notna l) as [|x l']; [contradiction|].
  destruct Hin' as [->|Hin'].
  - apply fold_max_mono, fltb_irrefl.
  - apply fold_max_upper, Hin'.
Qed.

(** The maximum of the payment chart (line 105) bounds its bars: no
    payment type has a rate above [max_value]. *)
Theorem payment_maximum_bounds_every_rate (df : DataFrame F) (k : string)
    (val : F) :
  In (k, val) (cancellation_rate df) -> fltb (max_value df) val = false.
Proof.
  intro Hin. apply series_max_upper. apply (in_map snd) in Hin. exact Hin.
Qed.
End Payment.

(** In [tied_frame] the maximum is 50 percent; voucher, with one
    cancellation in four orders, is below it. *)
Lemma payment_maximum_bounds_every_rate_tied :
  max_value tied_frame = 50%float /\
  In ("voucher"%string, 25%float) (cancellation_rate tied_frame) /\
  fltb (max_value tied_frame) 25%float = false.
Proof.
  split; [vm_compute; reflexivity|].
  assert (Hin : In ("voucher"%string, 25%float)
                  (cancellation_rate tied_frame)).
  { apply nth_error_In with 2%nat. vm_compute. reflexivity. }
  split; [exact Hin|].
  apply (payment_maximum_bounds_every_rate tied_frame "voucher" _ Hin).
Defined.

(** ** The two ranked views *)

Lemma rank_colors_tail (k n : nat) :
  map (fun i => if Nat.eqb i 0 then highlight_color else base_color)
    (seq (S k) n)
  = repeat base_color n.
Proof.
  revert k. induction n as [|n IH]; intro k; simpl; [reflexivity|].
  f_equal. apply IH.
Qed.

Lemma rank_colors_S (n : nat) :
  rank_colors (S n) = highlight_color :: repeat base_color n.
Proof. unfold rank_colors. simpl. f_equal. apply rank_colors_tail. Qed.

Lemma nlargest_length {A K : Type} (ltb : K -> K -> bool) (n : nat)
    (column : A -> K) (l : list A) :
  List.length (nlargest ltb n column l) = Nat.min n (List.length l).
Proof.
  unfold nlargest. rewrite length_firstn, sort_values_length. reflexivity.
Qed.

Lemma value_counts_length (l : list string) :
  List.length (value_counts l) = List.length (unique l).
Proof.
  unfold value_counts. rewrite sort_values_length, length_map. reflexivity.
Qed.

Lemma unique_length_pos (l : list string) :
  l <> [] -> exists n, List.length (unique l) = S n.
Proof.
  destruct l as [|x l]; [congruence|]. intros _. simpl. eexists. reflexivity.
Qed.

Section Ranked.
Context {F : Type} `{Float64 F}.

Lemma top_categories_length (df : DataFrame F) :
  List.length (top_categories df)
  = Nat.min 5 (List.length (unique (map product_category_name_english df))).
Proof.
  unfold top_categories. rewrite nlargest_length, value_counts_length.
  reflexivity.
Qed.

Lemma avg_delivery_time_length (df : DataFrame F) :
  List.length (avg_delivery_time df)
  = Nat.min 5 (List.length (unique (map customer_state df))).
Proof.
  unfold avg_delivery_time.
  rewrite nlargest_length, length_map, group_keys_length. reflexivity.
Qed.

(** C10.  On every non-empty subset the category chart and the delivery
    chart have at least one bar; the bar at position 0 has the highlight
    colour and every other bar has the base colour, which is a different
    colour.  The colours depend on the position only, so bars tied with the
    first one are not highlighted. *)
Theorem ranked_views_highlight_first_bar_only (df : DataFrame F) :
  df <> [] ->
  highlight_color <> base_color /\
  (exists n, List.length (top_categories df) = S n /\
             colors_tab1 df = highlight_color :: repeat base_color n) /\
  (exists n, List.length (avg_delivery_time df) = S n /\
             colors_tab2 df = highlight_color :: repeat base_color n).
Proof.
  intro Hne. split; [discriminate|]. split.
  - destruct (unique_length_pos (map product_category_name_english df))
      as [m Hm].
    { destruct df; [congruence|discriminate]. }
    unfold colors_tab1. rewrite top_categories_length, Hm.
    exists (Nat.min 4 m). split; [reflexivity|]. apply rank_colors_S.
  - destruct (unique_length_pos (map customer_state df)) as [m Hm].
    { destruct df; [congruence|discriminate]. }
    unfold colors_tab2. rewrite avg_delivery_time_length, Hm.
    exists (Nat.min 4 m). split; [reflexivity|]. apply rank_colors_S.
Qed.
End Ranked.

(** Two categories sold three times each and two states with the same mean
    delivery time: one highlighted bar per chart. *)
Lemma ranked_views_highlight_first_bar_only_tied :
  tied_frame <> [] /\
  map snd (top_categories tied_frame) = [3; 3; 2]%nat /\
  map snd (avg_delivery_time tied_frame) = [5%float; 5%float] /\
  highlight_color <> base_color /\
  (exists n, List.length (top_categories tied_frame) = S n /\
             colors_tab1 tied_frame = highlight_color :: repeat base_color n) /\
  (exists n, List.length (avg_delivery_time tied_frame) = S n /\
             colors_tab2 tied_frame = highlight_color :: repeat base_color n).
Proof.
  split; [discriminate|]. split; [vm_compute; reflexivity|].
  split; [vm_compute; reflexivity|].
  apply (ranked_views_highlight_first_bar_only tied_frame). discriminate.
Defined.

(** ** The metrics *)

(** C1, as the program has it.  On an empty subset Total Orders and Unique
    Customers are 0 and Total Revenue is 0.0, shown as "0", "0" and "$0.00";
    Average Order Value, the mean of no value, is not-a-number and is shown
    as "$nan".  The four cards are computed all the same: nothing fails. *)
Theorem empty_subset_metrics (all_df : DataFrame float)
    (date_range : Z * Z) :
  filtered_df all_df date_range = [] ->
  metrics (filtered_df all_df date_range)
    = {| m_total_orders := 0; m_total_revenue := 0%float;
         m_unique_customers := 0; m_average_order_value := nan |} /\
  metric_cards (filtered_df all_df date_range)
    = [ ("Total Orders", "0"); ("Total Revenue", "$0.00");
        ("Unique Customers", "0"); ("Average Order Value", "$nan")
      ]%string.
Proof.
  intros ->. split; vm_compute; reflexivity.
Qed.

(** The days between the two orders of [sample_frame]: no order. *)
Lemma empty_subset_metrics_sample :
  filtered_df sample_frame quiet_days = [] /\
  metrics (filtered_df sample_frame quiet_days)
    = {| m_total_orders := 0; m_total_revenue := 0%float;
         m_unique_customers := 0; m_average_order_value := nan |} /\
  metric_cards (filtered_df sample_frame quiet_days)
    = [ ("Total Orders", "0"); ("Total Revenue", "$0.00");
        ("Unique Customers", "0"); ("Average Order Value", "$nan")
      ]%string.
Proof.
  split; [vm_compute; reflexivity|].
  apply (empty_subset_metrics sample_frame quiet_days).
  vm_compute. reflexivity.
Defined.

(** C1, as stated, fails: on the empty subset of [sample_frame] between its
    two orders, Average Order Value is neither 0 nor shown as "$0.00". *)
Lemma empty_subset_average_is_not_zero :
  filtered_df sample_frame quiet_days = [] /\
  feqb (average_order_value (filtered_df sample_frame quiet_days))
       0%float = false /\
  lookup "Average Order Value"
    (metric_cards (filtered_df sample_frame quiet_days))
    <> Some "$0.00"%string.
Proof.
  split; [vm_compute; reflexivity|]. split; [vm_compute; reflexivity|].
  vm_compute. discriminate.
Qed.

(** C7.  The two orders of customer X (order A, 2020-01-01, $50, toys,
    delivered; order B, 2020-01-10, $30, toys, canceled), whatever their
    other columns, filtered to the default range, the full span of the
    data: Total Orders is 2, Unique Customers 1, Total Revenue $80.00 and
    Average Order Value $40.00; the RFM table has the one record of X, with
    recency 0, frequency 2 and monetary 80.00. *)
Theorem two_orders_example (state : string) (dt1 dt2 : float)
    (pay1 pay2 : string) :
  let all_df := two_orders 50%float 30%float state dt1 dt2 pay1 pay2 in
  default_date_range all_df = Some full_span /\
  filtered_df all_df full_span = all_df /\
  metrics (filtered_df all_df full_span)
    = {| m_total_orders := 2; m_total_revenue := 80%float;
         m_unique_customers := 1; m_average_order_value := 40%float |} /\
  metric_cards (filtered_df all_df full_span)
    = [ ("Total Orders", "2"); ("Total Revenue", "$80.00");
        ("Unique Customers", "1"); ("Average Order Value", "$40.00")
      ]%string /\
  rfm_df (filtered_df all_df full_span)
    = [ {| rfm_customer_id := "X"; max_order_timestamp := day 18271;
           frequency := 2; monetary := 80%float; recency := 0 |} ] /\
  format_2f 80%float = "80.00"%string.
Proof.
  intro all_df. subst all_df.
  repeat split; vm_compute; reflexivity.
Qed.

(** ** Recency *)

Lemma fold_max_ge_init (l : list Z) (x : Z) : x <= fold_left Z.max l x.
Proof.
  revert x. induction l as [|t l IH]; intro x; simpl; [lia|].
  specialize (IH (Z.max x t)). lia.
Qed.

Lemma fold_max_ge (l : list Z) (x t : Z) :
  In t l -> t <= fold_left Z.max l x.
Proof.
  revert x. induction l as [|u l IH]; intros x Hin; [contradiction|].
  simpl. destruct Hin as [->|Hin]; [|apply IH, Hin].
  pose proof (fold_max_ge_init l (Z.max x t)). lia.
Qed.

Lemma fold_max_In (l : list Z) (x : Z) : In (fold_left Z.max l x) (x :: l).
Proof.
  revert x. induction l as [|u l IH]; intro x; simpl; [left; reflexivity|].
  destruct (IH (Z.max x u)) as [Heq|Hin]; [|right; right; exact Hin].
  rewrite <- Heq. destruct (Z.max_spec x u) as [[_ ->]|[_ ->]];
    [right; left|left]; reflexivity.
Qed.

Lemma ts_max_spec (l : list Z) (m : Z) :
  ts_max l = Some m -> In m l /\ (forall t, In t l -> t <= m).
Proof.
  destruct l as [|x l]; simpl; [discriminate|]. intros [= <-]. split.
  - apply fold_max_In.
  - intros t [<-|Hin]; [apply fold_max_ge_init|apply fold_max_ge, Hin].
Qed.

Lemma ts_max_nonempty (l : list Z) : l <> [] -> exists m, ts_max l = Some m.
Proof. destruct l; [congruence|]. intros _. eexists. reflexivity. Qed.

Lemma dt_days_nonneg (delta : Z) : 0 <= delta -> 0 <= dt_days delta.
Proof. intro Hd. unfold dt_days, ns_per_day. apply Z.div_pos; lia. Qed.

Lemma dt_days_zero (delta : Z) :
  0 <= delta -> (dt_days delta = 0 <-> delta < ns_per_day).
Proof.
  intro Hd. unfold dt_days. split.
  - intro Hz. apply Z.div_small_iff in Hz; unfold ns_per_day in *; lia.
  - intro Hlt. apply Z.div_small. lia.
Qed.

Section Recency.
Context {F : Type} `{Float64 F}.
Implicit Types (df : DataFrame F) (row : Row F).

Lemma group_In (column : Row F -> string) df (k : string) row :
  In row (group column df k) <-> In row df /\ column row = k.
Proof. unfold group. rewrite filter_In, String.eqb_eq. tauto. Qed.

(** The latest purchase of a customer of the frame is a purchase of the
    frame, made by that customer. *)
Lemma group_last df (recent_date : Z) (k : string) :
  In k (map customer_id df) ->
  exists row, In row df /\ customer_id row = k /\
    max_order_timestamp (rfm_row df recent_date k)
      = order_purchase_timestamp row /\
    forall row', In row' df -> customer_id row' = k ->
      order_purchase_timestamp row'
        <= max_order_timestamp (rfm_row df recent_date k).
Proof.
  intro Hk. apply in_map_iff in Hk as (r0 & Hr0 & Hin0).
  assert (Hg : In r0 (group customer_id df k)) by (apply group_In; tauto).
  unfold rfm_row. simpl.
  destruct (ts_max (map order_purchase_timestamp (group customer_id df k)))
    as [last|] eqn:Hmax.
  - apply ts_max_spec in Hmax as [Hin Hub].
    apply in_map_iff in Hin as (row & Hts & Hrow).
    apply group_In in Hrow as [Hrow Hcust].
    exists row. repeat split; try assumption; [congruence|].
    intros row' Hin' Hk'. apply Hub, in_map, group_In. tauto.
  - destruct (group customer_id df k); [contradiction|discriminate].
Qed.

Lemma rfm_df_rows df (recent_date : Z) :
  ts_max (map order_purchase_timestamp df) = Some recent_date ->
  forall r, In r (rfm_df df) <->
    exists k, In k (map customer_id df) /\ r = rfm_row df recent_date k.
Proof.
  intros Hmax r. unfold rfm_df. rewrite Hmax, in_map_iff. split.
  - intros (k & <- & Hk). exists k. rewrite <- group_keys_In. tauto.
  - intros (k & Hk & ->). exists k. rewrite group_keys_In. tauto.
Qed.

(** C4, as the program has it.  On a non-empty subset every recency is at
    least 0; a customer's recency is 0 exactly when the last purchase of
    that customer is less than one day before the latest purchase of the
    subset; and the customer of that latest purchase is one of them. *)
Theorem recency_nonnegative_zero_within_a_day (df : DataFrame F) :
  df <> [] ->
  exists recent_date,
    ts_max (map order_purchase_timestamp df) = Some recent_date /\
    (forall r, In r (rfm_df df) ->
       0 <= recency r /\
       (recency r = 0 <->
        recent_date - max_order_timestamp r < ns_per_day)) /\
    (exists r, In r (rfm_df df) /\
       max_order_timestamp r = recent_date /\ recency r = 0).
Proof.
  intro Hne.
  destruct (ts_max_nonempty (map order_purchase_timestamp df))
    as [recent Hmax].
  { destruct df; [congruence|discriminate]. }
  exists recent. split; [exact Hmax|].
  pose proof (rfm_df_rows df recent Hmax) as Hrows.
  apply ts_max_spec in Hmax as [Hin Hub]. split.
  - intros r Hr. apply Hrows in Hr as (k & Hk & ->).
    destruct (group_last df recent k Hk) as (row & Hrow & _ & Hlast & _).
    assert (Hle : 0 <= recent - max_order_timestamp (rfm_row df recent k)).
    { rewrite Hlast. specialize (Hub _ (in_map _ _ _ Hrow)). lia. }
    split; [apply dt_days_nonneg, Hle|apply dt_days_zero, Hle].
  - apply in_map_iff in Hin as (row & Hts & Hrow).
    assert (Hk : In (customer_id row) (map customer_id df))
      by (apply in_map, Hrow).
    exists (rfm_row df recent (customer_id row)).
    split; [apply Hrows; eexists; split; [exact Hk|reflexivity]|].
    destruct (group_last df recent _ Hk) as (row' & Hrow' & _ & Hlast & Hge).
    assert (Heq : max_order_timestamp (rfm_row df recent (customer_id row))
                  = recent).
    { specialize (Hge row Hrow eq_refl).
      specialize (Hub _ (in_map order_purchase_timestamp _ _ Hrow')).
      lia. }
    split; [exact Heq|].
    change (recency (rfm_row df recent (customer_id row)))
      with (dt_days (recent - max_order_timestamp
                                (rfm_row df recent (customer_id row)))).
    rewrite Heq, Z.sub_diag. reflexivity.
Qed.
End Recency.

(** Two customers of [same_day_orders]: both have recency 0, though X bought
    an hour before Y. *)
Lemma recency_nonnegative_zero_within_a_day_sample :
  same_day_orders <> [] /\
  map recency (rfm_df same_day_orders) = [0; 0] /\
  exists recent_date,
    ts_max (map order_purchase_timestamp same_day_orders)
      = Some recent_date /\
    (forall r, In r (rfm_df same_day_orders) ->
       0 <= recency r /\
       (recency r = 0 <->
        recent_date - max_order_timestamp r < ns_per_day)) /\
    (exists r, In r (rfm_df same_day_orders) /\
       max_order_timestamp r = recent_date /\ recency r = 0).
Proof.
  split; [discriminate|]. split; [vm_compute; reflexivity|].
  apply (recency_nonnegative_zero_within_a_day same_day_orders).
  discriminate.
Defined.

(** C4, as stated, fails: in [same_day_orders] the customers with recency 0
    are two, X and Y, not one. *)
Lemma two_customers_with_recency_zero :
  same_day_orders <> [] /\
  map rfm_customer_id
    (filter (fun r => recency r =? 0) (rfm_df same_day_orders))
    = ["X"; "Y"]%string /\
  List.length (filter (fun r => recency r =? 0) (rfm_df same_day_orders))
    <> 1%nat.
Proof.
  split; [discriminate|]. split; [vm_compute; reflexivity|].
  vm_compute. discriminate.
Qed.

(** ** The records of the RFM table *)

Lemma firstn_subset {A : Type} (n : nat) (l : list A) (x : A) :
  In x (firstn n l) -> In x l.
Proof.
  intro Hin. rewrite <- (firstn_skipn n l). apply in_or_app. left. exact Hin.
Qed.

Lemma NoDup_map_injective {A B : Type} (f : A -> B) (l : list A) (x y : A) :
  NoDup (map f l) -> In x l -> In y l -> f x = f y -> x = y.
Proof.
  induction l as [|z l IH]; intros Hnd Hx Hy Heq; [contradiction|].
  simpl in Hnd. inversion Hnd as [|? ? Hz Hnd']; subst.
  destruct Hx as [->|Hx], Hy as [->|Hy]; try reflexivity.
  - exfalso. apply Hz. rewrite Heq. apply in_map, Hy.
  - exfalso. apply Hz. rewrite <- Heq. apply in_map, Hx.
  - apply IH; assumption.
Qed.

Section Rankings.
Context {F : Type} `{Float64 F}.

(** The RFM table has one record per customer, in the order of the
    customer identifiers. *)
Lemma rfm_df_customers (df : DataFrame F) :
  map rfm_customer_id (rfm_df df) = group_keys (map customer_id df).
Proof.
  unfold rfm_df.
  destruct (ts_max (map order_purchase_timestamp df)) eqn:Hmax.
  - rewrite map_map. simpl. apply map_id.
  - destruct df; [reflexivity|discriminate].
Qed.

Lemma rfm_df_NoDup_customers (df : DataFrame F) :
  NoDup (map rfm_customer_id (rfm_df df)).
Proof. rewrite rfm_df_customers. apply group_keys_NoDup. Qed.

Lemma rfm_df_NoDup (df : DataFrame F) : NoDup (rfm_df df).
Proof. eapply NoDup_map_inv, rfm_df_NoDup_customers. Qed.
End Rankings.

(** ** The cancellation rate *)

Lemma lookup_tabulate {V : Type} (f : string -> V) (k : string)
    (keys : list string) :
  lookup k (map (fun k' => (k', f k')) keys)
  = if in_dec string_dec k keys then Some (f k) else None.
Proof.
  induction keys as [|k' keys IH]; simpl; [reflexivity|].
  destruct (String.eqb_spec k k') as [->|Hne].
  - destruct (string_dec k' k'); [reflexivity|congruence].
  - rewrite IH. destruct (string_dec k' k); [congruence|].
    destruct (in_dec string_dec k keys); reflexivity.
Qed.

Section Cancellation.
Context {F : Type} `{Float64 F}.
Implicit Types (df : DataFrame F).

Lemma groupby_size_lookup (column : Row F -> string) df (k : string) :
  lookup k (groupby_size column df)
  = if in_dec string_dec k (map column df)
    then Some (List.length (group column df k)) else None.
Proof.
  unfold groupby_size.
  rewrite (lookup_tabulate (fun k => List.length (group column df k))).
  destruct (in_dec string_dec k (group_keys (map column df))) as [Hk|Hk],
           (in_dec string_dec k (map column df)) as [Hk'|Hk'];
    try reflexivity; exfalso; rewrite group_keys_In in Hk; contradiction.
Qed.

Lemma groupby_size_keys (column : Row F -> string) df :
  map fst (groupby_size column df) = group_keys (map column df).
Proof. unfold groupby_size. rewrite map_map. apply map_id. Qed.

Lemma group_length_pos (column : Row F -> string) df (k : string) :
  In k (map column df) <-> List.length (group column df k) <> 0%nat.
Proof.
  split.
  - intros Hk Hlen. apply in_map_iff in Hk as (r & Hr & Hin).
    apply length_zero_iff_nil in Hlen.
    assert (Hg : In r (group column df k)).
    { unfold group. apply filter_In. rewrite String.eqb_eq. tauto. }
    rewrite Hlen in Hg. contradiction.
  - intro Hlen. destruct (group column df k) as [|r g] eqn:Hg;
      [contradiction|].
    assert (Hr : In r (group column df k)) by (rewrite Hg; left; reflexivity).
    unfold group in Hr. apply filter_In in Hr as [Hr Hk].
    apply String.eqb_eq in Hk. subst k. apply in_map, Hr.
Qed.

Lemma canceled_incl df : incl (canceled df) df.
Proof. intros r Hr. unfold canceled in Hr. apply filter_In in Hr. tauto. Qed.

Lemma cancellation_rate_labels df (k : string) :
  In k (map fst (cancellation_rate df)) <-> In k (map payment_type df).
Proof.
  unfold cancellation_rate, series_div. rewrite !map_map. simpl.
  rewrite map_id, group_keys_In, !groupby_size_keys, in_app_iff,
    !group_keys_In.
  split; [|tauto]. intros [Hk|Hk]; [|exact Hk].
  apply in_map_iff in Hk as (r & <- & Hr). apply in_map, canceled_incl, Hr.
Qed.

Lemma cancellation_rate_entry df (k : string) (val : F) :
  In (k, val) (cancellation_rate df) ->
  rows_of df k <> 0%nat /\
  val = match canceled_rows_of df k with
        | O => fmul fnan (float_of_nat 100)
        | S c => fmul (fdiv (float_of_nat (S c)) (float_of_nat (rows_of df k)))
                      (float_of_nat 100)
        end.
Proof.
  intro Hin.
  assert (Hk : In k (map payment_type df)).
  { apply cancellation_rate_labels. apply (in_map fst) in Hin. exact Hin. }
  split; [apply group_length_pos, Hk|].
  unfold cancellation_rate, series_div in Hin. rewrite map_map in Hin.
  apply in_map_iff in Hin as (k' & Heq & _). simpl in Heq.
  injection Heq as -> <-. rewrite !groupby_size_lookup.
  unfold canceled_rows_of, rows_of.
  destruct (in_dec string_dec k (map payment_type df)); [|contradiction].
  destruct (in_dec string_dec k (map payment_type (canceled df)))
    as [Hc|Hc].
  - apply group_length_pos in Hc.
    destruct (List.length (group payment_type (canceled df) k));
      [contradiction|reflexivity].
  - destruct (List.length (group payment_type (canceled df) k)) eqn:Hlen;
      [reflexivity|].
    exfalso. apply Hc, group_length_pos. rewrite Hlen. discriminate.
Qed.

(** The payment chart (lines 102-103).  Its bars are the payment types that
    have a row in the subset, so no bar divides by zero.  The value of the
    bar of a type with [c] canceled rows out of [t] rows is [c / t * 100]
    when [c] is not 0; when [c] is 0 the type is missing from the series of
    the canceled counts and the value is [nan * 100]. *)
Theorem payment_chart_bars_and_rates df (k : string) :
  (In k (map fst (cancellation_rate df)) <-> rows_of df k <> 0%nat) /\
  (forall val : F, In (k, val) (cancellation_rate df) ->
     val = match canceled_rows_of df k with
           | O => fmul fnan (float_of_nat 100)
           | S c =>
               fmul (fdiv (float_of_nat (S c)) (float_of_nat (rows_of df k)))
                    (float_of_nat 100)
           end).
Proof.
  split.
  - rewrite cancellation_rate_labels. apply group_length_pos.
  - intros val Hin. apply cancellation_rate_entry, Hin.
Qed.
End Cancellation.

(** C3 on the code.  [no_cancellation] is one delivered order paid by
    credit card: 0 canceled rows out of 1, a rate of 0 / 1 * 100 = 0
    percent.  The program's series holds not-a-number for that payment
    type, and its bar has the base colour. *)
Theorem rate_without_cancellation_is_nan :
  rows_of no_cancellation "credit_card" = 1%nat /\
  canceled_rows_of no_cancellation "credit_card" = 0%nat /\
  fmul (fdiv (float_of_nat 0) (float_of_nat 1)) (float_of_nat 100)
    = 0%float /\
  cancellation_rate no_cancellation = [("credit_card"%string, nan)] /\
  isnan (max_value no_cancellation) = true /\
  colors_tab3 no_cancellation = [base_color].
Proof. repeat split; vm_compute; reflexivity. Qed.

(** C5 on the code.  [undisputed_orders] has two payment types and no
    cancellation: both rates are 0 / 1 * 100 = 0 percent, both are at the
    maximum, and both bars are to be highlighted.  The program's series
    holds not-a-number for both types, its maximum is not-a-number, and
    both bars have the base colour.  In [tied_frame], where every payment
    type has a cancellation, the program colours the bars as specified. *)
Theorem bars_tied_at_zero_are_not_highlighted :
  map fst (cancellation_rate undisputed_orders)
    = ["boleto"; "credit_card"]%string /\
  map (spec_cancellation_rate undisputed_orders)
    ["boleto"; "credit_card"]%string = [0%float; 0%float] /\
  spec_payment_colors undisputed_orders
    = [highlight_color; highlight_color] /\
  map isnan (map snd (cancellation_rate undisputed_orders))
    = [true; true] /\
  isnan (max_value undisputed_orders) = true /\
  colors_tab3 undisputed_orders = [base_color; base_color] /\
  colors_tab3 tied_frame = spec_payment_colors tied_frame /\
  colors_tab3 tied_frame = [highlight_color; highlight_color; base_color].
Proof. repeat split; vm_compute; reflexivity. Qed.

(** ** Order of the ranked tables *)

Section Sorted.
Context {A : Type} (precedes : A -> A -> bool).
Hypothesis precedes_asym :
  forall x y, precedes x y = true -> precedes y x = false.
Hypothesis precedes_negtrans :
  forall x y z,
    precedes y x = false -> precedes z y = false -> precedes z x = false.

Lemma insert_ordered (x : A) (l : list A) :
  ordered precedes l -> ordered precedes (insert precedes x l).
Proof.
  intros Hl a b Hb.
  destruct (insert_split precedes x l) as (l1 & l2 & -> & Heq & Hall & Hhd).
  rewrite Heq in Hb. rewrite Forall_forall in Hall.
  assert (Htail : forall z, In z l2 -> precedes z x = false).
  { destruct l2 as [|y l2]; [contradiction|].
    pose proof (Hhd y eq_refl) as Hy. intros z [<-|Hz]; [exact Hy|].
    apply (precedes_negtrans x y z Hy). apply Hl.
    apply before_app_r, before_cons_head, Hz. }
  apply before_app_inv in Hb as [H1|[H2|[Ha Hbx]]].
  - apply Hl, before_app_l, H1.
  - apply before_cons_inv in H2 as [[<- Hin]|H2].
    + apply Htail, Hin.
    + apply Hl, before_app_r, H2.
  - destruct Hbx as [<-|Hin].
    + apply precedes_asym, Hall, Ha.
    + apply Hl, before_app_cross; assumption.
Qed.

Lemma sort_values_ordered (l : list A) :
  ordered precedes (sort_values precedes l).
Proof.
  induction l as [|x l IH]; simpl.
  - intros a b (l1 & l2 & l3 & Heq). destruct l1; discriminate.
  - apply insert_ordered, IH.
Qed.

(** The first [n] rows of the sort are in order, and no row left out ranks
    strictly ahead of one of them. *)
Lemma top_rows_ordered (n : nat) (l : list A) (a b : A) :
  In a (firstn n (sort_values precedes l)) ->
  before a b (firstn n (sort_values precedes l)) \/
  (In b l /\ ~ In b (firstn n (sort_values precedes l))) ->
  precedes b a = false.
Proof.
  intros Ha Hb. apply (sort_values_ordered l).
  rewrite <- (firstn_skipn n (sort_values precedes l)).
  destruct Hb as [Hb|[Hb Hout]]; [apply before_app_l, Hb|].
  apply before_app_cross; [exact Ha|].
  apply (sort_values_In precedes) in Hb.
  rewrite <- (firstn_skipn n (sort_values precedes l)) in Hb.
  apply in_app_or in Hb as [Hb|Hb]; [contradiction|exact Hb].
Qed.
End Sorted.

Lemma before_map_inv {A B : Type} (f : A -> B) (x y : B) (l : list A) :
  before x y (map f l) ->
  exists a b, f a = x /\ f b = y /\ before a b l.
Proof.
  intros (l1 & l2 & l3 & Heq).
  apply map_eq_app in Heq as (m1 & m' & -> & <- & Heq).
  apply map_eq_cons in Heq as (a & m'' & -> & <- & Heq).
  apply map_eq_app in Heq as (m2 & m''' & -> & <- & Heq).
  apply map_eq_cons in Heq as (b & m3 & -> & <- & <-).
  exists a, b. repeat split. exists m1, m2, m3. reflexivity.
Qed.

Section Tables.
Context {F : Type} `{Float64 F}.
Implicit Types (df : DataFrame F).

(** The recency table (line 136) lists recencies in ascending order, and
    the recency of a customer it leaves out is at least every recency it
    lists: the table holds the smallest recencies. *)
Theorem recency_table_ascending df :
  (forall a b, before a b (recency_df df) -> snd a <= snd b) /\
  (forall r c v, In r (rfm_df df) ->
     ~ In (rfm_customer_id r) (map fst (recency_df df)) ->
     In (c, v) (recency_df df) -> v <= recency r).
Proof.
  assert (Hasym : forall x y : Rfm F,
             (recency x <? recency y) = true ->
             (recency y <? recency x) = false).
  { intros x y. rewrite Z.ltb_lt, Z.ltb_ge. lia. }
  assert (Hneg : forall x y z : Rfm F,
             (recency y <? recency x) = false ->
             (recency z <? recency y) = false ->
             (recency z <? recency x) = false).
  { intros x y z. rewrite !Z.ltb_ge. lia. }
  unfold recency_df, nsmallest. split.
  - intros a b Hb. apply before_map_inv in Hb as (a' & b' & <- & <- & Hb).
    simpl. apply Z.ltb_ge.
    apply (top_rows_ordered _ Hasym Hneg 5 (rfm_df df) a' b');
      [eapply before_In_l, Hb|left; exact Hb].
  - intros r c v Hr Hout Hin. apply in_map_iff in Hin as (a & [= <- <-] & Ha).
    apply Z.ltb_ge.
    apply (top_rows_ordered _ Hasym Hneg 5 (rfm_df df) a r); [exact Ha|].
    right. split; [exact Hr|]. intro Hin. apply Hout.
    rewrite map_map. simpl. apply in_map, Hin.
Qed.

(** The frequency table (line 142) lists frequencies in descending order,
    and holds the largest ones.  The category chart (line 72) lists counts
    in descending order and holds the largest ones: a category of the
    subset that has no bar is sold at most as often as every category that
    has one, and no category of the subset is sold more often than the
    category of the first bar. *)
Theorem frequency_and_category_descending df :
  (forall a b, before a b (frequency_df df) -> (snd b <= snd a)%nat) /\
  (forall r c v, In r (rfm_df df) ->
     ~ In (rfm_customer_id r) (map fst (frequency_df df)) ->
     In (c, v) (frequency_df df) -> (frequency r <= v)%nat) /\
  (forall a b, before a b (top_categories df) -> (snd b <= snd a)%nat) /\
  (forall k c v, In k (map product_category_name_english df) ->
     ~ In k (map fst (top_categories df)) ->
     In (c, v) (top_categories df) ->
     (count_label k (map product_category_name_english df) <= v)%nat) /\
  (forall c v bars k, top_categories df = (c, v) :: bars ->
     In k (map product_category_name_english df) ->
     (count_label k (map product_category_name_english df) <= v)%nat).
Proof.
  assert (Hasym : forall (T : Type) (f : T -> nat) (x y : T),
             (f y <? f x)%nat = true -> (f x <? f y)%nat = false).
  { intros T f x y. rewrite Nat.ltb_lt, Nat.ltb_ge. lia. }
  assert (Hneg : forall (T : Type) (f : T -> nat) (x y z : T),
             (f x <? f y)%nat = false -> (f y <? f z)%nat = false ->
             (f x <? f z)%nat = false).
  { intros T f x y z. rewrite !Nat.ltb_ge. lia. }
  set (column := map product_category_name_english df).
  assert (Hdesc : forall a b, before a b (top_categories df) ->
                    (snd b <= snd a)%nat).
  { intros a b Hb. apply Nat.ltb_ge.
    apply (top_rows_ordered _ (Hasym _ snd) (Hneg _ snd) 5
             (value_counts column) a b);
      [eapply before_In_l, Hb|left; exact Hb]. }
  assert (Hout : forall k c v, In k column ->
            ~ In k (map fst (top_categories df)) ->
            In (c, v) (top_categories df) ->
            (count_label k column <= v)%nat).
  { intros k c v Hk Hno Hin. apply Nat.ltb_ge.
    apply (top_rows_ordered _ (Hasym _ snd) (Hneg _ snd) 5
             (value_counts column) (c, v) (k, count_label k column));
      [exact Hin|]. right. split.
    - unfold value_counts. apply sort_values_In, in_map_iff.
      exists k. split; [reflexivity|apply unique_In, Hk].
    - intro Hin'. apply Hno. apply (in_map fst) in Hin'. exact Hin'. }
  split; [|split; [|split; [exact Hdesc|split; [exact Hout|]]]].
  - intros a b Hb. apply before_map_inv in Hb as (a' & b' & <- & <- & Hb).
    simpl. apply Nat.ltb_ge.
    apply (top_rows_ordered _ (Hasym _ frequency) (Hneg _ frequency)
             5 (rfm_df df) a' b');
      [eapply before_In_l, Hb|left; exact Hb].
  - intros r c v Hr Hno Hin. apply in_map_iff in Hin as (a & [= <- <-] & Ha).
    apply Nat.ltb_ge.
    apply (top_rows_ordered _ (Hasym _ frequency) (Hneg _ frequency)
             5 (rfm_df df) a r); [exact Ha|].
    right. split; [exact Hr|]. intro Hin. apply Hno.
    unfold frequency_df. rewrite map_map. simpl. apply in_map, Hin.
  - intros c v bars k Htop Hk.
    destruct (in_dec string_dec k (map fst (top_categories df)))
      as [Hin|Hno].
    + apply in_map_iff in Hin as ([k' n] & Hfst & Hin). simpl in Hfst.
      subst k'.
      assert (Hn : n = count_label k column).
      { unfold top_categories, nlargest in Hin.
        apply firstn_subset, sort_values_In in Hin.
        unfold value_counts in Hin.
        apply sort_values_In, in_map_iff in Hin as (k' & [= -> <-] & _).
        reflexivity. }
      rewrite <- Hn. rewrite Htop in Hin. destruct Hin as [[= _ <-]|Hin].
      * apply Nat.le_refl.
      * apply (Hdesc (c, v) (k, n)). rewrite Htop.
        apply before_cons_head, Hin.
    + apply (Hout k c v Hk Hno). rewrite Htop. left. reflexivity.
Qed.
End Tables.

(** ** Counts *)

Lemma filter_length_bound {A : Type} (f : A -> bool) (l : list A) :
  (List.length (filter f l) <= List.length l)%nat.
Proof.
  induction l as [|x l IH]; simpl; [lia|]. destruct (f x); simpl; lia.
Qed.

Lemma filter_length_all {A : Type} (f : A -> bool) (l : list A) :
  List.length (filter f l) = List.length l -> filter f l = l.
Proof.
  induction l as [|x l IH]; simpl; [reflexivity|].
  pose proof (filter_length_bound f l). destruct (f x); simpl; intro Hlen.
  - f_equal. apply IH. lia.
  - lia.
Qed.

Lemma unique_length_le (l : list string) :
  (List.length (unique l) <= List.length l)%nat.
Proof.
  induction l as [|x l IH]; simpl; [lia|].
  pose proof (filter_length_bound
                (fun y => negb (String.eqb y x)) (unique l)). lia.
Qed.

Lemma unique_length_eq (l : list string) :
  List.length (unique l) = List.length l <-> NoDup l.
Proof.
  induction l as [|x l IH]; simpl.
  - split; [constructor|reflexivity].
  - pose proof (filter_length_bound
                  (fun y => negb (String.eqb y x)) (unique l)) as Hf.
    pose proof (unique_length_le l) as Hu. split.
    + intro Hlen. injection Hlen as Hlen.
      constructor; [|apply IH; lia].
      intro Hin. apply unique_In in Hin.
      rewrite <- (filter_length_all (fun y => negb (String.eqb y x))
                    (unique l)) in Hin by lia.
      apply filter_In in Hin as [_ Hne].
      rewrite String.eqb_refl in Hne. discriminate.
    + intro Hnd. apply NoDup_cons_iff in Hnd as [Hx Hnd'].
      rewrite forallb_filter_id; [f_equal; apply IH, Hnd'|].
      apply forallb_forall. intros y Hy.
      apply (proj1 (unique_In l y)) in Hy.
      apply negb_true_iff, String.eqb_neq. intros ->. contradiction.
Qed.

Section Counts.
Context {F : Type} `{Float64 F}.
Implicit Types (df : DataFrame F).

(** Total Orders (line 54) is at most the number of rows, and equal to it
    exactly when no order identifier is repeated. *)
Theorem total_orders_at_most_rows df :
  (total_orders df <= List.length df)%nat /\
  (total_orders df = List.length df <-> NoDup (map order_id df)).
Proof.
  unfold total_orders. rewrite <- (length_map order_id df). split.
  - apply unique_length_le.
  - apply unique_length_eq.
Qed.

Lemma group_cons (column : Row F -> string) (r : Row F) df (k : string) :
  List.length (group column (r :: df) k)
  = ((if String.eqb (column r) k then 1 else 0)
     + List.length (group column df k))%nat.
Proof.
  unfold group. simpl. destruct (String.eqb (column r) k); reflexivity.
Qed.

Lemma list_sum_indicator (k0 : string) (keys : list string) :
  NoDup keys -> In k0 keys ->
  list_sum (map (fun k => if String.eqb k0 k then 1 else 0)%nat keys) = 1%nat.
Proof.
  induction 1 as [|k keys Hk Hnd IH]; intro Hin; [contradiction|].
  simpl. destruct (String.eqb_spec k0 k) as [->|Hne].
  - f_equal. clear IH Hin. induction keys as [|k' keys IHk]; [reflexivity|].
    simpl. destruct (String.eqb_spec k k') as [->|_].
    + exfalso. apply Hk. left. reflexivity.
    + apply IHk.
      * intro Hin. apply Hk. right. exact Hin.
      * inversion Hnd. assumption.
  - destruct Hin as [->|Hin]; [congruence|]. apply IH, Hin.
Qed.

Lemma list_sum_plus {A : Type} (f g : A -> nat) (l : list A) :
  list_sum (map (fun x => f x + g x)%nat l)
  = (list_sum (map f l) + list_sum (map g l))%nat.
Proof. induction l as [|x l IH]; simpl; [reflexivity|]. rewrite IH. lia. Qed.

(** The sizes of the groups of a frame add up to its number of rows. *)
Lemma group_sizes_partition (column : Row F -> string) df
    (keys : list string) :
  NoDup keys -> incl (map column df) keys ->
  list_sum (map (fun k => List.length (group column df k)) keys)
  = List.length df.
Proof.
  intro Hnd. induction df as [|r df IH]; intro Hincl.
  - simpl. clear Hnd Hincl.
    induction keys as [|k keys IHk]; [reflexivity|exact IHk].
  - rewrite (map_ext _ _ (group_cons column r df)), list_sum_plus.
    rewrite IH by (intros k Hk; apply Hincl; right; exact Hk).
    rewrite list_sum_indicator;
      [reflexivity|exact Hnd|apply Hincl; left; reflexivity].
Qed.

(** The canceled rows of the payment types of the subset add up to the
    canceled rows of the subset (the numerators of lines 102-103). *)
Theorem canceled_counts_add_up df :
  list_sum (map (canceled_rows_of df) (group_keys (map payment_type df)))
  = List.length (canceled df).
Proof.
  apply group_sizes_partition; [apply group_keys_NoDup|].
  intros k Hk. apply group_keys_In.
  apply in_map_iff in Hk as (r & <- & Hr).
  apply in_map. unfold canceled in Hr. apply filter_In in Hr. tauto.
Qed.
End Counts.

(** ** The date input and the filter *)

Lemma fold_min_le_init (l : list Z) (x : Z) : fold_left Z.min l x <= x.
Proof.
  revert x. induction l as [|t l IH]; intro x; simpl; [lia|].
  specialize (IH (Z.min x t)). lia.
Qed.

Lemma fold_min_le (l : list Z) (x t : Z) :
  In t l -> fold_left Z.min l x <= t.
Proof.
  revert x. induction l as [|u l IH]; intros x Hin; [contradiction|].
  simpl. destruct Hin as [->|Hin]; [|apply IH, Hin].
  pose proof (fold_min_le_init l (Z.min x t)). lia.
Qed.

Lemma dt_date_mono (s t : Z) : s <= t -> dt_date s <= dt_date t.
Proof.
  intro Hle. unfold dt_date, ns_per_day. apply Z.div_le_mono; lia.
Qed.

Section DateInput.
Context {F : Type} `{Float64 F}.
Implicit Types (all_df df : DataFrame F).

(** The default of the date input (lines 39-44) selects every row: with the
    bounds the page starts with, the filtered subset is the whole frame. *)
Theorem default_range_keeps_every_row all_df (date_range : Z * Z) :
  default_date_range all_df = Some date_range ->
  fst date_range <= snd date_range /\
  filtered_df all_df date_range = all_df.
Proof.
  destruct all_df as [|r0 df]; [discriminate|].
  unfold default_date_range. intros [= <-]. cbn [fst snd].
  set (ts := map order_purchase_timestamp df).
  pose proof (fold_min_le_init ts (order_purchase_timestamp r0)) as Hlo.
  pose proof (fold_max_ge_init ts (order_purchase_timestamp r0)) as Hhi.
  split; [apply dt_date_mono; lia|].
  unfold filtered_df. apply forallb_filter_id, forallb_forall.
  intros r Hr. unfold mask. cbn [fst snd].
  apply andb_true_iff. rewrite !Z.leb_le.
  destruct Hr as [<-|Hr]; [split; apply dt_date_mono; assumption|].
  assert (Hin : In (order_purchase_timestamp r) ts) by (apply in_map, Hr).
  split; apply dt_date_mono;
    [apply fold_min_le, Hin|apply fold_max_ge, Hin].
Qed.

(** A range without a purchase stops the page at its first chart (line
    76): when no row of a frame with rows is purchased within the bounds,
    as for every inverted range, the four cards of the empty subset are
    shown and the first [px.bar] raises; when some row is, all three charts
    are drawn and the page is completed, so that the page never stops at
    the second or the third chart. *)
Theorem empty_selection_stops_at_first_chart all_df (date_range : Z * Z) :
  all_df <> [] ->
  ((forall r, In r all_df -> ~ in_range date_range r) ->
   main (Some all_df) date_range = BarChartError 76 (metric_cards [])) /\
  (snd date_range < fst date_range ->
   main (Some all_df) date_range = BarChartError 76 (metric_cards [])) /\
  ((exists r, In r all_df /\ in_range date_range r) ->
   exists p, main (Some all_df) date_range = Dashboard p /\
     p_metrics p = metric_cards (filtered_df all_df date_range) /\
     fst (p_tab1 p) <> [] /\ fst (p_tab2 p) <> [] /\ fst (p_tab3 p) <> []).
Proof.
  intro Hrows.
  assert (Hfirst : exists dr, default_date_range all_df = Some dr).
  { destruct all_df; [congruence|]. simpl. eexists. reflexivity. }
  destruct Hfirst as [dr Hdr].
  assert (Hnone : (forall r, In r all_df -> ~ in_range date_range r) ->
            main (Some all_df) date_range
            = BarChartError 76 (metric_cards [])).
  { intro Hout. unfold main. rewrite Hdr.
    rewrite (filtered_df_outside all_df date_range Hout). reflexivity. }
  split; [exact Hnone|]. split.
  - intro Hinv. apply Hnone. intros r _ Hr. unfold in_range in Hr. lia.
  - intros (r & Hr & Hin). unfold main. rewrite Hdr.
    set (df := filtered_df all_df date_range).
    assert (Hdf : In r df) by (apply filtered_df_In; split; assumption).
    assert (H1 : top_categories df <> []).
    { intro Hnil. apply (f_equal (@List.length _)) in Hnil.
      rewrite top_categories_length in Hnil.
      destruct (unique_length_pos (map product_category_name_english df))
        as [n Hn]; [|rewrite Hn in Hnil; discriminate].
      intro Hmap. apply map_eq_nil in Hmap. rewrite Hmap in Hdf.
      contradiction. }
    assert (H2 : avg_delivery_time df <> []).
    { intro Hnil. apply (f_equal (@List.length _)) in Hnil.
      rewrite avg_delivery_time_length in Hnil.
      destruct (unique_length_pos (map customer_state df))
        as [n Hn]; [|rewrite Hn in Hnil; discriminate].
      intro Hmap. apply map_eq_nil in Hmap. rewrite Hmap in Hdf.
      contradiction. }
    assert (H3 : cancellation_rate df <> []).
    { intro Hnil.
      assert (Hk : In (payment_type r) (map fst (cancellation_rate df)))
        by (apply cancellation_rate_labels, in_map, Hdf).
      rewrite Hnil in Hk. contradiction. }
    unfold px_bar.
    destruct (top_categories df) as [|b1 t1] eqn:E1; [congruence|].
    destruct (avg_delivery_time df) as [|b2 t2] eqn:E2; [congruence|].
    destruct (cancellation_rate df) as [|b3 t3] eqn:E3; [congruence|].
    eexists. split; [reflexivity|]. cbn [p_metrics p_tab1 p_tab2 p_tab3 fst].
    repeat split; discriminate.
Qed.

(** Narrowing a subset that is already filtered gives the subset of the
    narrower range: filtering by a range and then by a range inside it is
    filtering by the inner range alone. *)
Theorem filter_then_narrow all_df (r1 r2 : Z * Z) :
  (forall d, fst r1 <= d <= snd r1 -> fst r2 <= d <= snd r2) ->
  filtered_df (filtered_df all_df r2) r1 = filtered_df all_df r1.
Proof.
  intro Hsub. unfold filtered_df.
  induction all_df as [|r df IH]; [reflexivity|]. simpl.
  destruct (mask r2 r) eqn:H2; simpl; rewrite IH; [reflexivity|].
  destruct (mask r1 r) eqn:H1; [|reflexivity].
  apply mask_spec in H1. apply Hsub in H1.
  apply (mask_spec r2 r) in H1. congruence.
Qed.
End DateInput.

Lemma default_range_keeps_every_row_sample :
  default_date_range sample_frame = Some full_span /\
  fst full_span <= snd full_span /\
  filtered_df sample_frame full_span = sample_frame.
Proof.
  split; [vm_compute; reflexivity|].
  apply (default_range_keeps_every_row sample_frame full_span).
  vm_compute. reflexivity.
Defined.

Lemma empty_selection_stops_at_first_chart_sample :
  main (Some sample_frame) quiet_days
  = BarChartError 76
      [("Total Orders", "0"); ("Total Revenue", "$0.00");
       ("Unique Customers", "0"); ("Average Order Value", "$nan")]%string /\
  main (Some sample_frame) (18271, 18262)
  = main (Some sample_frame) quiet_days /\
  exists p, main (Some sample_frame) first_day = Dashboard p /\
    fst (p_tab3 p) <> [].
Proof.
  destruct (empty_selection_stops_at_first_chart sample_frame first_day)
    as (_ & _ & Hsome); [discriminate|].
  destruct (empty_selection_stops_at_first_chart sample_frame quiet_days)
    as (Hnone & _ & _); [discriminate|].
  destruct (empty_selection_stops_at_first_chart sample_frame (18271, 18262))
    as (_ & Hinv & _); [discriminate|].
  split; [|split].
  - rewrite Hnone; [vm_compute; reflexivity|].
    intros r [<-|[<-|[]]]; vm_compute; intros [H1 H2];
      (apply H1; reflexivity) || (apply H2; reflexivity).
  - rewrite Hinv by (simpl; lia). vm_compute. reflexivity.
  - destruct Hsome as (p & Hp & _ & _ & _ & H3).
    + eexists. split; [left; reflexivity|].
      vm_compute. split; discriminate.
    + exists p. split; assumption.
Defined.

Lemma filter_then_narrow_sample :
  filtered_df (filtered_df sample_frame full_span) first_day
  = filtered_df sample_frame first_day.
Proof.
  apply (filter_then_narrow sample_frame first_day full_span).
  simpl. intros d Hd. lia.
Defined.

(** ** The RFM table *)

Lemma div_sub_le (a b n : Z) : 0 < n -> (a - b) / n <= a / n - b / n.
Proof.
  intro Hn. apply Z.lt_succ_r, Z.div_lt_upper_bound; [exact Hn|].
  pose proof (Z.div_mod a n ltac:(lia)) as Ha.
  pose proof (Z.div_mod b n ltac:(lia)) as Hb.
  pose proof (Z.mod_pos_bound a n Hn). pose proof (Z.mod_pos_bound b n Hn).
  nia.
Qed.

Section RfmTable.
Context {F : Type} `{Float64 F}.
Implicit Types (all_df df : DataFrame F) (r : Rfm F).

Lemma rfm_df_record df r :
  In r (rfm_df df) ->
  exists recent_date k,
    ts_max (map order_purchase_timestamp df) = Some recent_date /\
    In k (map customer_id df) /\ r = rfm_row df recent_date k.
Proof.
  intro Hr.
  destruct (ts_max (map order_purchase_timestamp df)) as [recent|] eqn:Hmax.
  - destruct (proj1 (rfm_df_rows df recent Hmax r) Hr) as (k & Hk & Heq).
    exists recent, k. repeat split; assumption.
  - unfold rfm_df in Hr. rewrite Hmax in Hr. contradiction.
Qed.

(** The RFM table (lines 121-127) has one record per distinct customer of
    the subset: as many records as the Unique Customers metric counts, no
    customer twice, and exactly the customers that have a row. *)
Theorem rfm_table_one_record_per_customer df :
  List.length (rfm_df df) = unique_customers df /\
  NoDup (map rfm_customer_id (rfm_df df)) /\
  (forall c, In c (map rfm_customer_id (rfm_df df)) <->
             In c (map customer_id df)).
Proof.
  split; [|split].
  - rewrite <- (length_map rfm_customer_id), rfm_df_customers.
    apply group_keys_length.
  - apply rfm_df_NoDup_customers.
  - intro c. rewrite rfm_df_customers. apply group_keys_In.
Qed.

(** What a record of the RFM table says of its customer: the last purchase
    is the timestamp of one of the customer's rows and no row of the
    customer is later; the frequency is at least 1, at most the number of
    rows of the customer and at most Total Orders. *)
Theorem rfm_record_summarises_customer df r :
  In r (rfm_df df) ->
  (exists row, In row df /\ customer_id row = rfm_customer_id r /\
     order_purchase_timestamp row = max_order_timestamp r) /\
  (forall row, In row df -> customer_id row = rfm_customer_id r ->
     order_purchase_timestamp row <= max_order_timestamp r) /\
  (1 <= frequency r)%nat /\
  (frequency r
     <= List.length (group customer_id df (rfm_customer_id r)))%nat /\
  (frequency r <= total_orders df)%nat.
Proof.
  intro Hr. apply rfm_df_record in Hr as (recent & k & _ & Hk & ->).
  destruct (group_last df recent k Hk) as (row & Hrow & Hc & Hlast & Hge).
  change (rfm_customer_id (rfm_row df recent k)) with k.
  change (frequency (rfm_row df recent k))
    with (List.length (unique (map order_id (group customer_id df k)))).
  split; [exists row; repeat split; congruence|].
  split; [exact Hge|]. split; [|split].
  - assert (Hg : In row (group customer_id df k))
      by (apply group_In; tauto).
    destruct (group customer_id df k); [contradiction|]. simpl. lia.
  - rewrite <- (length_map order_id (group customer_id df k)).
    apply unique_length_le.
  - apply unique_length_incl, incl_map. intros row' Hin.
    apply group_In in Hin. tauto.
Qed.

(** Filter and RFM table together: the last purchase of every record lies
    in the selected range of dates, and the recency, at least 0, is at most
    the width of the range in days. *)
Theorem rfm_record_within_range all_df (date_range : Z * Z) r :
  In r (rfm_df (filtered_df all_df date_range)) ->
  fst date_range <= dt_date (max_order_timestamp r) <= snd date_range /\
  0 <= recency r <= snd date_range - fst date_range.
Proof.
  intro Hr. remember (filtered_df all_df date_range) as df eqn:Hdf.
  apply rfm_df_record in Hr as (recent & k & Hmax & Hk & ->).
  destruct (group_last df recent k Hk) as (row & Hrow & _ & Hlast & _).
  apply ts_max_spec in Hmax as [Hin Hub].
  pose proof (Hub _ (in_map order_purchase_timestamp _ _ Hrow)) as Hle.
  apply in_map_iff in Hin as (row' & Hts & Hrow').
  rewrite Hdf in Hrow, Hrow'.
  apply filtered_df_In in Hrow as [_ Hrange].
  apply filtered_df_In in Hrow' as [_ Hrange'].
  unfold in_range, purchase_date in Hrange, Hrange'.
  rewrite <- Hlast in Hrange, Hle. rewrite Hts in Hrange'.
  split; [exact Hrange|].
  change (recency (rfm_row df recent k))
    with (dt_days (recent - max_order_timestamp (rfm_row df recent k))).
  split; [apply dt_days_nonneg; lia|].
  pose proof (div_sub_le recent (max_order_timestamp (rfm_row df recent k))
                ns_per_day ltac:(unfold ns_per_day; lia)) as Hdiv.
  unfold dt_days. unfold dt_date in Hrange, Hrange'. lia.
Qed.
End RfmTable.

Lemma rfm_record_summarises_customer_sample :
  In sample_X (rfm_df sample_frame) /\
  (exists row, In row sample_frame /\
     customer_id row = rfm_customer_id sample_X /\
     order_purchase_timestamp row = max_order_timestamp sample_X) /\
  (forall row, In row sample_frame ->
     customer_id row = rfm_customer_id sample_X ->
     order_purchase_timestamp row <= max_order_timestamp sample_X) /\
  (1 <= frequency sample_X)%nat /\
  (frequency sample_X
     <= List.length
          (group customer_id sample_frame (rfm_customer_id sample_X)))%nat /\
  (frequency sample_X <= total_orders sample_frame)%nat.
Proof.
  assert (Hin : In sample_X (rfm_df sample_frame))
    by (vm_compute; left; reflexivity).
  split; [exact Hin|].
  apply (rfm_record_summarises_customer sample_frame sample_X Hin).
Defined.

Lemma rfm_record_within_range_sample :
  In sample_X (rfm_df (filtered_df sample_frame full_span)) /\
  fst full_span <= dt_date (max_order_timestamp sample_X)
    <= snd full_span /\
  0 <= recency sample_X <= snd full_span - fst full_span.
Proof.
  assert (Hin : In sample_X (rfm_df (filtered_df sample_frame full_span)))
    by (vm_compute; left; reflexivity).
  split; [exact Hin|].
  apply (rfm_record_within_range sample_frame full_span sample_X Hin).
Defined.

(** ** The sum of a column *)

Section ColumnSum.
Context {F : Type} `{Float64 F}.

End ColumnSum.


(** ** Revenue per customer *)

Section Revenue.
Context {F : Type} `{Float64 F}.
Implicit Types (df : DataFrame F) (keys : list string).





End Revenue.


(** ** What the charts and the tables list *)

Lemma NoDup_firstn {A : Type} (n : nat) (l : list A) :
  NoDup l -> NoDup (firstn n l).
Proof.
  intro Hnd. rewrite <- (firstn_skipn n l) in Hnd.
  apply NoDup_app_remove_r in Hnd. exact Hnd.
Qed.

(** The first rows of a sort keep a column without repetition so. *)
Lemma top_rows_NoDup {A B : Type} (f : A -> B) (precedes : A -> A -> bool)
    (n : nat) (l : list A) :
  NoDup (map f l) -> NoDup (map f (firstn n (sort_values precedes l))).
Proof.
  intro Hnd. rewrite <- firstn_map. apply NoDup_firstn.
  eapply Permutation_NoDup; [|exact Hnd].
  apply Permutation_map, Permutation_sym, sort_values_perm.
Qed.

Lemma top_rows_In {A : Type} (precedes : A -> A -> bool) (n : nat)
    (l : list A) (x : A) :
  In x (firstn n (sort_values precedes l)) -> In x l.
Proof.
  intro Hin. apply firstn_subset in Hin.
  apply sort_values_In in Hin. exact Hin.
Qed.

Lemma rank_colors_length (n : nat) : List.length (rank_colors n) = n.
Proof. unfold rank_colors. rewrite length_map. apply length_seq. Qed.

Lemma count_label_cons (k x : string) (l : list string) :
  count_label k (x :: l)
  = ((if String.eqb x k then 1 else 0) + count_label k l)%nat.
Proof.
  unfold count_label. simpl. rewrite (String.eqb_sym k x).
  destruct (String.eqb x k); reflexivity.
Qed.

Lemma count_label_pos (k : string) (l : list string) :
  In k l -> (1 <= count_label k l)%nat.
Proof.
  induction l as [|x l IH]; intro Hin; [contradiction|].
  rewrite count_label_cons. destruct Hin as [->|Hin].
  - rewrite String.eqb_refl. lia.
  - specialize (IH Hin). lia.
Qed.

(** Every label is counted once: the counts of the distinct labels add up
    to the length of the column. *)
Lemma count_label_partition (l keys : list string) :
  NoDup keys -> incl l keys ->
  list_sum (map (fun k => count_label k l) keys) = List.length l.
Proof.
  intro Hnd. induction l as [|x l IH]; intro Hincl.
  - clear Hnd Hincl. induction keys as [|k keys IHk]; [reflexivity|exact IHk].
  - rewrite (map_ext _ _ (fun k => count_label_cons k x l)), list_sum_plus.
    rewrite IH by (intros k Hk; apply Hincl; right; exact Hk).
    rewrite list_sum_indicator;
      [reflexivity|exact Hnd|apply Hincl; left; reflexivity].
Qed.

Lemma list_sum_perm (l l' : list nat) :
  Permutation l l' -> list_sum l = list_sum l'.
Proof. induction 1; simpl; lia. Qed.

Lemma list_sum_firstn (n : nat) (l : list nat) :
  (list_sum (firstn n l) <= list_sum l)%nat.
Proof.
  rewrite <- (firstn_skipn n l) at 2. rewrite list_sum_app. lia.
Qed.

Lemma value_counts_total (l : list string) :
  list_sum (map snd (value_counts l)) = List.length l.
Proof.
  unfold value_counts.
  rewrite (list_sum_perm _ _
             (Permutation_map snd (sort_values_perm _ _))).
  rewrite map_map. simpl. apply count_label_partition.
  - apply unique_NoDup.
  - intros k Hk. apply unique_In, Hk.
Qed.

Section Listed.
Context {F : Type} `{Float64 F}.
Implicit Types (df : DataFrame F).

(** The category chart (lines 72-74): at most five bars, one colour per
    bar, no category twice; the value of a bar is the number of rows of its
    category, at least 1; the bars account for at most the rows of the
    subset, and for all of them when it has at most five categories. *)
Theorem category_chart_bars df :
  let column := map product_category_name_english df in
  List.length (top_categories df)
    = Nat.min 5 (List.length (unique column)) /\
  List.length (colors_tab1 df) = List.length (top_categories df) /\
  NoDup (map fst (top_categories df)) /\
  (forall k n, In (k, n) (top_categories df) ->
     In k column /\ n = count_label k column /\ (1 <= n)%nat) /\
  (list_sum (map snd (top_categories df)) <= List.length df)%nat /\
  ((List.length (unique column) <= 5)%nat ->
   list_sum (map snd (top_categories df)) = List.length df).
Proof.
  intro column. split; [apply top_categories_length|].
  split; [apply rank_colors_length|].
  assert (Hvc : forall k n, In (k, n) (value_counts column) ->
                  In k column /\ n = count_label k column).
  { intros k n Hin. unfold value_counts in Hin.
    apply sort_values_In, in_map_iff in Hin as (k' & [= -> <-] & Hk').
    split; [apply unique_In, Hk'|reflexivity]. }
  assert (Hnd : NoDup (map fst (value_counts column))).
  { unfold value_counts. eapply Permutation_NoDup.
    - apply Permutation_map, Permutation_sym, sort_values_perm.
    - rewrite map_map. simpl. rewrite map_id. apply unique_NoDup. }
  split; [apply top_rows_NoDup, Hnd|]. split; [|split].
  - intros k n Hin. apply top_rows_In, Hvc in Hin as [Hk ->].
    repeat split; [exact Hk|apply count_label_pos, Hk].
  - unfold top_categories, nlargest. rewrite <- firstn_map.
    etransitivity; [apply list_sum_firstn|].
    rewrite <- (length_map product_category_name_english df).
    fold column. rewrite <- (value_counts_total column).
    apply Nat.eq_le_incl, list_sum_perm, Permutation_map, sort_values_perm.
  - intro Hfive. unfold top_categories, nlargest.
    rewrite firstn_all2
      by (rewrite sort_values_length, value_counts_length; exact Hfive).
    rewrite <- (length_map product_category_name_english df).
    fold column. rewrite <- (value_counts_total column).
    apply list_sum_perm, Permutation_map, sort_values_perm.
Qed.

(** The delivery chart (lines 87-89): five bars, or one per state when the
    subset has fewer than five states; one colour per bar; no state twice;
    every bar is labelled with a state of the subset; and with at most five
    states every state of the subset has its bar. *)
Theorem delivery_chart_bars df :
  List.length (avg_delivery_time df)
    = Nat.min 5 (List.length (unique (map customer_state df))) /\
  List.length (colors_tab2 df) = List.length (avg_delivery_time df) /\
  NoDup (map fst (avg_delivery_time df)) /\
  (forall k, In k (map fst (avg_delivery_time df)) ->
     In k (map customer_state df)) /\
  ((List.length (unique (map customer_state df)) <= 5)%nat ->
   forall k, In k (map customer_state df) ->
     In k (map fst (avg_delivery_time df))).
Proof.
  split; [apply avg_delivery_time_length|].
  split; [apply rank_colors_length|]. split; [|split].
  - apply top_rows_NoDup. rewrite map_map. simpl. rewrite map_id.
    apply group_keys_NoDup.
  - intros k Hin. apply in_map_iff in Hin as ([k' v] & <- & Hin).
    apply top_rows_In, in_map_iff in Hin as (k'' & [= -> <-] & Hk').
    apply group_keys_In, Hk'.
  - intros Hfive k Hk. unfold avg_delivery_time, nlargest.
    rewrite firstn_all2.
    + apply in_map_iff.
      exists (k, group_mean (map delivery_time (group customer_state df k))).
      split; [reflexivity|]. apply sort_values_In, in_map_iff.
      exists k. split; [reflexivity|apply group_keys_In, Hk].
    + rewrite sort_values_length, length_map, group_keys_length.
      exact Hfive.
Qed.

(** The three top-5 tables (lines 136-150): each has five rows, or one per
    customer when the subset has fewer than five customers; no customer is
    listed twice; every row shows a customer of the RFM table with that
    customer's recency, frequency, or monetary value rounded to two
    decimals. *)
Theorem top5_tables_rows df :
  (List.length (recency_df df) = Nat.min 5 (unique_customers df) /\
   List.length (frequency_df df) = Nat.min 5 (unique_customers df) /\
   List.length (monetary_df df) = Nat.min 5 (unique_customers df)) /\
  (NoDup (map fst (recency_df df)) /\
   NoDup (map fst (frequency_df df)) /\
   NoDup (map fst (monetary_df df))) /\
  (forall c v, In (c, v) (recency_df df) ->
     exists r, In r (rfm_df df) /\ rfm_customer_id r = c /\ recency r = v) /\
  (forall c v, In (c, v) (frequency_df df) ->
     exists r, In r (rfm_df df) /\ rfm_customer_id r = c /\
               frequency r = v) /\
  (forall c v, In (c, v) (monetary_df df) ->
     exists r, In r (rfm_df df) /\ rfm_customer_id r = c /\
               round2 (monetary r) = v).
Proof.
  assert (Hlen : List.length (rfm_df df) = unique_customers df).
  { rewrite <- (length_map rfm_customer_id), rfm_df_customers.
    apply group_keys_length. }
  unfold recency_df, frequency_df, monetary_df, nsmallest, nlargest.
  rewrite !length_map, !length_firstn, !sort_values_length, Hlen.
  rewrite !map_map. cbn [fst snd].
  split; [repeat split|].
  split; [repeat split; apply top_rows_NoDup, rfm_df_NoDup_customers|].
  repeat split; intros c v Hin;
    apply in_map_iff in Hin as (r & [= <- <-] & Hr);
    apply top_rows_In in Hr; exists r; repeat split; exact Hr.
Qed.
End Listed.

(** ** More laws of binary64 *)

Lemma sf_rank_asym (s t : spec_float) :
  sf_rank_ltb s t = true -> sf_rank_ltb t s = false.
Proof.
  unfold sf_rank_ltb, SFltb.
  destruct s as [a|a| |a m e], t as [b|b| |b n f];
    simpl; try discriminate; try reflexivity;
    try destruct a; try destruct b;
    simpl; try discriminate; try reflexivity.
  all: change (PosDef.Pos.compare_cont Eq ?a ?b) with (Pos.compare a b).
  all: rewrite (Z.compare_antisym e f), (Pos.compare_antisym m n).
  all: destruct (e ?= f)%Z, (m ?= n)%positive;
       simpl; try discriminate; try reflexivity.
Qed.

Lemma sf_rank_negtrans (s t u : spec_float) :
  sf_rank_ltb s t = false -> sf_rank_ltb t u = false ->
  sf_rank_ltb s u = false.
Proof.
  unfold sf_rank_ltb, SFltb.
  destruct s as [a|a| |a m e], t as [b|b| |b n f], u as [c|c| |c p g];
    simpl; try discriminate; try reflexivity;
    try destruct a; try destruct b; try destruct c;
    simpl; try discriminate; try reflexivity.
  all: change (PosDef.Pos.compare_cont Eq ?a ?b) with (Pos.compare a b).
  all: destruct (Z.compare_spec e f), (Z.compare_spec f g),
         (Z.compare_spec e g);
       simpl; try discriminate; try reflexivity; try lia.
  all: destruct (Pos.compare_spec m n), (Pos.compare_spec n p),
         (Pos.compare_spec m p);
       simpl; try discriminate; try reflexivity; try lia.
Qed.

Lemma is_nan_sf (x : float) : PrimFloat.is_nan x = sf_isnan (Prim2SF x).
Proof.
  unfold PrimFloat.is_nan. rewrite FloatAxioms.eqb_spec. unfold SFeqb.
  destruct (Prim2SF x) as [b|b| |b m e]; simpl; try reflexivity.
  - destruct b; reflexivity.
  - rewrite Z.compare_refl.
    change (PosDef.Pos.compare_cont Eq m m) with (Pos.compare m m).
    rewrite Pos.compare_refl. destruct b; reflexivity.
Qed.

Lemma float_ltb_sf (x y : float) :
  float_ltb x y = sf_rank_ltb (Prim2SF x) (Prim2SF y).
Proof.
  unfold float_ltb, notna, sf_rank_ltb. simpl.
  rewrite !is_nan_sf, FloatAxioms.ltb_spec. reflexivity.
Qed.

#[export] Instance binary64_rank : FloatRank float.
Proof.
  split; intros; rewrite float_ltb_sf in *.
  - apply sf_rank_asym. assumption.
  - eapply sf_rank_negtrans; eassumption.
Qed.

#[export] Instance binary64_eq : FloatEq float.
Proof.
  split; simpl.
  - intros x Hx. unfold PrimFloat.is_nan in Hx.
    apply negb_false_iff in Hx. exact Hx.
  - intros x y Hy. rewrite FloatAxioms.eqb_spec, (is_nan_Prim2SF y Hy).
    unfold SFeqb. destruct (Prim2SF x); reflexivity.
  - vm_compute. reflexivity.
  - intro y. rewrite is_nan_sf, FloatAxioms.mul_spec.
    replace (Prim2SF nan) with S754_nan by (vm_compute; reflexivity).
    reflexivity.
Qed.

(** ** The order of strings *)

Lemma string_compare_le_trans (x y z : string) :
  String.compare x y <> Gt -> String.compare y z <> Gt ->
  String.compare x z <> Gt.
Proof.
  revert y z. induction x as [|a x IH]; intros [|b y] [|c z]; simpl;
    try congruence.
  unfold Ascii.compare.
  destruct (N.compare_spec (N_of_ascii a) (N_of_ascii b)) as [Hab|Hab|Hab],
           (N.compare_spec (N_of_ascii b) (N_of_ascii c)) as [Hbc|Hbc|Hbc],
           (N.compare_spec (N_of_ascii a) (N_of_ascii c)) as [Hac|Hac|Hac];
    try congruence; try lia.
  apply IH.
Qed.

Lemma string_ltb_asym (x y : string) :
  String.ltb x y = true -> String.ltb y x = false.
Proof.
  unfold String.ltb. rewrite (String.compare_antisym y x).
  destruct (String.compare x y); simpl; congruence.
Qed.

Lemma string_ltb_negtrans (x y z : string) :
  String.ltb y x = false -> String.ltb z y = false ->
  String.ltb z x = false.
Proof.
  unfold String.ltb. intros Hyx Hzy.
  assert (Hxy : String.compare x y <> Gt).
  { rewrite String.compare_antisym.
    destruct (String.compare y x); simpl; congruence. }
  assert (Hyz : String.compare y z <> Gt).
  { rewrite String.compare_antisym.
    destruct (String.compare z y); simpl; congruence. }
  pose proof (string_compare_le_trans x y z Hxy Hyz) as Hxz.
  rewrite String.compare_antisym in Hxz.
  destruct (String.compare z x); simpl in *; congruence.
Qed.

Lemma string_ltb_total (x y : string) :
  x <> y -> String.ltb y x = false -> String.ltb x y = true.
Proof.
  unfold String.ltb. intros Hne. rewrite (String.compare_antisym x y).
  destruct (String.compare y x) eqn:E; simpl; try congruence.
  apply String.compare_eq_iff in E. congruence.
Qed.

Lemma before_NoDup_neq {A : Type} (a b : A) (l : list A) :
  NoDup l -> before a b l -> a <> b.
Proof.
  intros Hnd (l1 & l2 & l3 & ->) <-.
  apply NoDup_app_remove_l in Hnd. apply NoDup_cons_iff in Hnd as [Ha _].
  apply Ha, in_or_app. right. left. reflexivity.
Qed.

(** The keys of a [groupby] are in strictly ascending order. *)
Lemma group_keys_ascending (l : list string) (a b : string) :
  before a b (group_keys l) -> String.ltb a b = true.
Proof.
  intro Hb. apply string_ltb_total.
  - eapply before_NoDup_neq; [apply group_keys_NoDup|exact Hb].
  - apply (sort_values_ordered String.ltb string_ltb_asym
             string_ltb_negtrans (unique l)), Hb.
Qed.

Section Grouped.
Context {F : Type} `{Float64 F}.
Implicit Types (df : DataFrame F).

(** The rows of the RFM table (lines 121-125) and the bars of the payment
    chart (lines 102-103) come in strictly ascending order of their label,
    the customer identifier and the payment type. *)
Theorem grouped_rows_in_label_order df :
  (forall a b, before a b (map rfm_customer_id (rfm_df df)) ->
     String.ltb a b = true) /\
  (forall a b, before a b (map fst (cancellation_rate df)) ->
     String.ltb a b = true).
Proof.
  split; intros a b Hb.
  - rewrite rfm_df_customers in Hb. eapply group_keys_ascending, Hb.
  - unfold cancellation_rate, series_div in Hb.
    rewrite !map_map in Hb. cbn [fst] in Hb. rewrite map_id in Hb.
    eapply group_keys_ascending, Hb.
Qed.
End Grouped.

(** ** Order of the float rankings *)

Section FloatRankings.
Context {F : Type} `{Float64 F} `{!FloatRank F}.
Implicit Types (df : DataFrame F).

(** The delivery chart (line 87) lists its bars in descending order of the
    mean: no bar is outranked by a later one, so the first, highlighted bar
    has the largest mean.  The customers selected for the monetary table
    (line 148) come in descending order of their monetary value, and no
    customer left out outranks one of them. *)
Theorem float_rankings_descending df :
  (forall a b, before a b (avg_delivery_time df) ->
     float_ltb (snd a) (snd b) = false) /\
  (forall a b, before a b (nlargest float_ltb 5 monetary (rfm_df df)) ->
     float_ltb (monetary a) (monetary b) = false) /\
  (forall a r, In a (nlargest float_ltb 5 monetary (rfm_df df)) ->
     In r (rfm_df df) ->
     ~ In r (nlargest float_ltb 5 monetary (rfm_df df)) ->
     float_ltb (monetary a) (monetary r) = false).
Proof.
  assert (Hasym : forall (T : Type) (f : T -> F) (x y : T),
             float_ltb (f y) (f x) = true -> float_ltb (f x) (f y) = false).
  { intros T f x y. apply float_ltb_asym. }
  assert (Hneg : forall (T : Type) (f : T -> F) (x y z : T),
             float_ltb (f x) (f y) = false ->
             float_ltb (f y) (f z) = false ->
             float_ltb (f x) (f z) = false).
  { intros T f x y z. apply float_ltb_negtrans. }
  unfold avg_delivery_time, nlargest. repeat split.
  - intros a b Hb.
    eapply (top_rows_ordered _ (Hasym _ snd) (Hneg _ snd));
      [eapply before_In_l, Hb|left; exact Hb].
  - intros a b Hb.
    apply (top_rows_ordered _ (Hasym _ monetary) (Hneg _ monetary)
             5 (rfm_df df) a b);
      [eapply before_In_l, Hb|left; exact Hb].
  - intros a r Ha Hr Hout.
    apply (top_rows_ordered _ (Hasym _ monetary) (Hneg _ monetary)
             5 (rfm_df df) a r); [exact Ha|right; split; assumption].
Qed.
End FloatRankings.

Lemma float_rankings_descending_tied :
  map snd (avg_delivery_time tied_frame) = [5%float; 5%float] /\
  map monetary (nlargest float_ltb 5 monetary (rfm_df tied_frame))
    = [60%float; 10%float; 10%float] /\
  (forall a b, before a b (avg_delivery_time tied_frame) ->
     float_ltb (snd a) (snd b) = false) /\
  (forall a b,
     before a b (nlargest float_ltb 5 monetary (rfm_df tied_frame)) ->
     float_ltb (monetary a) (monetary b) = false) /\
  (forall a r,
     In a (nlargest float_ltb 5 monetary (rfm_df tied_frame)) ->
     In r (rfm_df tied_frame) ->
     ~ In r (nlargest float_ltb 5 monetary (rfm_df tied_frame)) ->
     float_ltb (monetary a) (monetary r) = false).
Proof.
  split; [vm_compute; reflexivity|]. split; [vm_compute; reflexivity|].
  apply (float_rankings_descending tied_frame).
Defined.

(** ** Ties in the three rankings *)

Section Ranking.
Context {A : Type} (precedes : A -> A -> bool).
Hypothesis precedes_asym :
  forall x y, precedes x y = true -> precedes y x = false.
Hypothesis precedes_negtrans :
  forall x y z,
    precedes y x = false -> precedes z y = false -> precedes z x = false.

(** The stable sort puts [a] before [b] exactly when [a] wins over [b]. *)
Lemma sort_values_rank (l : list A) (a b : A) :
  NoDup l -> In a l -> In b l ->
  (before a b (sort_values precedes l) <-> ranks_ahead precedes l a b).
Proof.
  intros Hnd Ha Hb.
  pose proof (sort_values_NoDup precedes l Hnd) as Hnd'.
  pose proof (sort_values_ordered precedes precedes_asym precedes_negtrans l)
    as Hord.
  split.
  - intro Hab. pose proof (Hord a b Hab) as Hba.
    destruct (precedes a b) eqn:Hpab; [left; exact Hpab|]. right.
    split; [exact Hba|].
    destruct (before_total a b l Ha Hb (before_NoDup_neq a b _ Hnd' Hab))
      as [Hl|Hl]; [exact Hl|].
    exfalso. apply (before_asym a b _ Hnd' Hab).
    apply sort_values_stable; assumption.
  - intros [Hpab|[Hba Hl]]; [|apply sort_values_stable; assumption].
    assert (Hne : a <> b).
    { intros <-. rewrite (precedes_asym a a Hpab) in Hpab. discriminate. }
    destruct (before_total a b (sort_values precedes l)) as [Hs|Hs];
      try (apply sort_values_In; assumption); try assumption.
    apply Hord in Hs. congruence.
Qed.

(** So do the first [n] rows of the sort, which hold whatever wins over
    one of them. *)
Lemma top_rows_rank (n : nat) (l : list A) (a b : A) :
  NoDup l -> In a l -> In b l ->
  (before a b (firstn n (sort_values precedes l)) ->
   ranks_ahead precedes l a b) /\
  (In b (firstn n (sort_values precedes l)) ->
   ranks_ahead precedes l a b ->
   before a b (firstn n (sort_values precedes l))).
Proof.
  intros Hnd Ha Hb. split.
  - intro Hab. apply sort_values_rank; try assumption.
    eapply before_firstn_inv, Hab.
  - intros Hin Hr. apply before_firstn; [apply sort_values_NoDup, Hnd| |].
    + apply sort_values_rank; assumption.
    + exact Hin.
Qed.

(** Of two different rows one wins over the other, and only one. *)
Lemma ranks_ahead_total (l : list A) (a b : A) :
  NoDup l -> In a l -> In b l -> a <> b ->
  ranks_ahead precedes l a b \/ ranks_ahead precedes l b a.
Proof.
  intros Hnd Ha Hb Hne.
  destruct (before_total a b (sort_values precedes l)) as [Hs|Hs];
    try (apply sort_values_In; assumption); try assumption;
    [left|right]; apply sort_values_rank; assumption.
Qed.

Lemma ranks_ahead_asym (l : list A) (a b : A) :
  NoDup l -> In a l -> In b l ->
  ranks_ahead precedes l a b -> ~ ranks_ahead precedes l b a.
Proof.
  intros Hnd Ha Hb Hab Hba.
  apply sort_values_rank in Hab; try assumption.
  apply sort_values_rank in Hba; try assumption.
  apply (before_asym a b _ (sort_values_NoDup precedes l Hnd) Hab Hba).
Qed.

(** Two lists without repetition that hold the same rows in the order of
    the same ranking are one list. *)
Lemma ranked_lists_equal (l t1 t2 : list A) :
  NoDup l -> NoDup t1 -> NoDup t2 -> incl t1 l ->
  (forall x, In x t1 <-> In x t2) ->
  (forall a b, before a b t1 -> ranks_ahead precedes l a b) ->
  (forall a b, before a b t2 -> ranks_ahead precedes l a b) ->
  t1 = t2.
Proof.
  intros Hnd. revert t2.
  induction t1 as [|x t1 IH]; intros t2 Hnd1 Hnd2 Hincl Hsame Hr1 Hr2.
  - destruct t2 as [|y t2]; [reflexivity|].
    exfalso. apply (proj2 (Hsame y)). left. reflexivity.
  - destruct t2 as [|y t2].
    { exfalso. apply (proj1 (Hsame x)). left. reflexivity. }
    inversion Hnd1 as [|? ? Hx Hnd1']; subst.
    inversion Hnd2 as [|? ? Hy Hnd2']; subst.
    assert (Hxy : x = y).
    { destruct (proj1 (Hsame x) (or_introl eq_refl)) as [Heq|Hx2];
        [congruence|].
      destruct (proj2 (Hsame y) (or_introl eq_refl)) as [Heq|Hy1];
        [congruence|].
      exfalso.
      apply (ranks_ahead_asym l x y Hnd); try (apply Hincl).
      - left. reflexivity.
      - right. exact Hy1.
      - apply Hr1, before_cons_head, Hy1.
      - apply Hr2, before_cons_head, Hx2. }
    subst y. f_equal. apply IH; try assumption.
    + intros z Hz. apply Hincl. right. exact Hz.
    + intro z. split; intro Hz.
      * destruct (proj1 (Hsame z) (or_intror Hz)) as [Heq|Hz2];
          [subst z; contradiction|exact Hz2].
      * destruct (proj2 (Hsame z) (or_intror Hz)) as [Heq|Hz1];
          [subst z; contradiction|exact Hz1].
    + intros a b Hab. apply Hr1, before_cons, Hab.
    + intros a b Hab. apply Hr2, before_cons, Hab.
Qed.

(** The first [n] rows of the sort are the only list of that length that
    is in the order of the ranking and holds whatever wins over one of its
    rows. *)
Lemma top_rows_unique (n : nat) (l t : list A) :
  (forall x y, In x l -> In y l -> x = y \/ x <> y) ->
  NoDup l -> NoDup t -> incl t l ->
  List.length t = Nat.min n (List.length l) ->
  (forall a b, before a b t -> ranks_ahead precedes l a b) ->
  (forall a b, In a l -> In b t -> ranks_ahead precedes l a b -> In a t) ->
  t = firstn n (sort_values precedes l).
Proof.
  intros Hdec Hnd Hndt Hincl Hlen Hord Hclosed.
  set (top := firstn n (sort_values precedes l)).
  assert (Hndtop : NoDup top).
  { pose proof (sort_values_NoDup precedes l Hnd) as Hs.
    rewrite <- (firstn_skipn n (sort_values precedes l)) in Hs.
    apply NoDup_app_remove_r in Hs. exact Hs. }
  assert (Hintop : incl top l).
  { intros x Hx. apply firstn_subset, sort_values_In in Hx. exact Hx. }
  assert (Hlentop : List.length top = List.length t).
  { unfold top. rewrite length_firstn, sort_values_length. lia. }
  assert (Hclosedtop : forall a b, In a l -> In b top ->
            ranks_ahead precedes l a b -> In a top).
  { intros a b Ha Hb Hr.
    destruct (top_rows_rank n l a b Hnd Ha (Hintop b Hb)) as [_ Hfrom].
    eapply before_In_l, Hfrom; assumption. }
  assert (Hsub : incl t top).
  { intros x Hx.
    assert (Hmem : forall m, incl m l -> In x m \/ ~ In x m).
    { induction m as [|y m IHm]; intro Hm; [right; intros []|].
      destruct (Hdec y x) as [Heq|Hne];
        [apply Hm; left; reflexivity|apply Hincl, Hx|left; left; exact Heq|].
      destruct IHm as [Hin|Hout];
        [intros z Hz; apply Hm; right; exact Hz|left; right; exact Hin|].
      right. intros [Heq|Hin]; [apply Hne, Heq|apply Hout, Hin]. }
    destruct (Hmem top Hintop) as [Hin|Hout]; [exact Hin|].
    exfalso.
    assert (Hall : incl (x :: top) t).
    { intros y [<-|Hy]; [exact Hx|].
      apply (Hclosed y x (Hintop y Hy) Hx).
      destruct (ranks_ahead_total l y x Hnd (Hintop y Hy) (Hincl x Hx))
        as [Hr|Hr]; [intros ->; contradiction|exact Hr|].
      exfalso. apply Hout.
      apply (Hclosedtop x y (Hincl x Hx) Hy Hr). }
    apply NoDup_incl_length in Hall; [simpl in Hall; lia|].
    constructor; assumption. }
  apply (ranked_lists_equal l); try assumption.
  - intro x. split; [apply Hsub|].
    apply NoDup_length_incl; [exact Hndt|lia|exact Hsub].
  - intros a b Hab.
    destruct (top_rows_rank n l a b Hnd) as [Hto _];
      [apply Hintop; eapply before_In_l, Hab
      |apply Hintop; eapply before_In_r, Hab|].
    apply Hto, Hab.
Qed.
End Ranking.

Section TieBreak.
Context {F : Type} `{Float64 F} `{!FloatRank F}.
Implicit Types (df : DataFrame F).

(** The customer column of a top-5 table, read off the RFM table. *)
Lemma table_rank (precedes : Rfm F -> Rfm F -> bool) df (a b : Rfm F) :
  (forall x y, precedes x y = true -> precedes y x = false) ->
  (forall x y z,
     precedes y x = false -> precedes z y = false -> precedes z x = false) ->
  In a (rfm_df df) -> In b (rfm_df df) ->
  let table :=
    map rfm_customer_id (firstn 5 (sort_values precedes (rfm_df df))) in
  (before (rfm_customer_id a) (rfm_customer_id b) table ->
   ranks_ahead precedes (rfm_df df) a b) /\
  (In (rfm_customer_id b) table -> ranks_ahead precedes (rfm_df df) a b ->
   before (rfm_customer_id a) (rfm_customer_id b) table).
Proof.
  intros Hasym Hneg Ha Hb table.
  assert (Hsame : forall x y, In x (firstn 5 (sort_values precedes (rfm_df df)))
            -> In y (rfm_df df) -> rfm_customer_id x = rfm_customer_id y ->
            x = y).
  { intros x y Hx Hy Hid.
    apply (NoDup_map_injective rfm_customer_id (rfm_df df));
      [apply rfm_df_NoDup_customers| |exact Hy|exact Hid].
    apply firstn_subset, sort_values_In in Hx. exact Hx. }
  destruct (top_rows_rank precedes Hasym Hneg 5 (rfm_df df) a b
              (rfm_df_NoDup df) Ha Hb) as [Hto Hfrom].
  split.
  - intro Hab. apply before_map_inv in Hab as (a' & b' & Hida & Hidb & Hab).
    apply Hto.
    rewrite <- (Hsame a' a (before_In_l _ _ _ Hab) Ha Hida).
    rewrite <- (Hsame b' b (before_In_r _ _ _ Hab) Hb Hidb).
    exact Hab.
  - intros Hin Hr. apply before_map, Hfrom; [|exact Hr].
    apply in_map_iff in Hin as (b' & Hid & Hin).
    rewrite <- (Hsame b' b Hin Hb Hid). exact Hin.
Qed.

(** C8.  The order of the RFM table decides the ties of the three top-5
    tables.  For two customers [a] and [b] of the RFM table, [a] stands
    above [b] in a table only if [a] has the better value of the metric
    (the smaller recency, the larger frequency, the larger monetary value),
    or neither value is better and [a] comes first in the RFM table; and
    when that is so, a table that lists [b] lists [a] too, above [b].  In
    particular, of two customers with the same monetary value the first of
    the RFM table wins. *)
Theorem rankings_break_ties_by_table_order df (a b : Rfm F) :
  In a (rfm_df df) -> In b (rfm_df df) ->
  let first_seen := before a b (rfm_df df) in
  let above (table : list string) :=
    before (rfm_customer_id a) (rfm_customer_id b) table in
  let listed (table : list string) := In (rfm_customer_id b) table in
  let smaller_recency :=
    recency a < recency b \/ (recency a = recency b /\ first_seen) in
  let larger_frequency :=
    (frequency b < frequency a)%nat \/
    (frequency a = frequency b /\ first_seen) in
  let larger_monetary :=
    float_ltb (monetary b) (monetary a) = true \/
    (float_ltb (monetary a) (monetary b) = false /\
     float_ltb (monetary b) (monetary a) = false /\ first_seen) in
  (above (map fst (recency_df df)) -> smaller_recency) /\
  (listed (map fst (recency_df df)) -> smaller_recency ->
   above (map fst (recency_df df))) /\
  (above (map fst (frequency_df df)) -> larger_frequency) /\
  (listed (map fst (frequency_df df)) -> larger_frequency ->
   above (map fst (frequency_df df))) /\
  (above (map fst (monetary_df df)) -> larger_monetary) /\
  (listed (map fst (monetary_df df)) -> larger_monetary ->
   above (map fst (monetary_df df))) /\
  (listed (map fst (monetary_df df)) -> monetary a = monetary b ->
   first_seen -> above (map fst (monetary_df df))).
Proof.
  intros Ha Hb first_seen above listed smaller_recency larger_frequency
    larger_monetary.
  unfold above, listed, recency_df, frequency_df, monetary_df, nsmallest,
    nlargest.
  rewrite !map_map. cbn [fst].
  destruct (table_rank (fun x y => recency x <? recency y) df a b)
    as [Hr1 Hr2]; try assumption.
  { intros x y. rewrite Z.ltb_lt, Z.ltb_ge. lia. }
  { intros x y z. rewrite !Z.ltb_ge. lia. }
  destruct (table_rank (fun x y => (frequency y <? frequency x)%nat) df a b)
    as [Hf1 Hf2]; try assumption.
  { intros x y. rewrite Nat.ltb_lt, Nat.ltb_ge. lia. }
  { intros x y z. rewrite !Nat.ltb_ge. lia. }
  destruct (table_rank (fun x y => float_ltb (monetary y) (monetary x))
              df a b) as [Hm1 Hm2]; try assumption.
  { intros x y. apply float_ltb_asym. }
  { intros x y z Hxy Hyz. apply (float_ltb_negtrans _ _ _ Hxy Hyz). }
  assert (Hirr : forall x : F, float_ltb x x = false).
  { intro x. destruct (float_ltb x x) eqn:Hx; [|reflexivity].
    rewrite (float_ltb_asym x x Hx) in Hx. discriminate. }
  unfold ranks_ahead in *. fold first_seen in Hr1, Hr2, Hf1, Hf2, Hm1, Hm2.
  repeat split.
  - intro Hab. destruct (Hr1 Hab) as [Hlt|[Hge Hseen]].
    + left. apply Z.ltb_lt, Hlt.
    + apply Z.ltb_ge in Hge.
      destruct (Z.eq_dec (recency a) (recency b)) as [Heq|Hne];
        [right; split; assumption|left; lia].
  - intros Hin [Hlt|[Heq Hseen]]; apply Hr2; try assumption.
    + left. apply Z.ltb_lt, Hlt.
    + right. split; [apply Z.ltb_ge; lia|exact Hseen].
  - intro Hab. destruct (Hf1 Hab) as [Hlt|[Hge Hseen]].
    + left. apply Nat.ltb_lt, Hlt.
    + apply Nat.ltb_ge in Hge.
      destruct (Nat.eq_dec (frequency a) (frequency b)) as [Heq|Hne];
        [right; split; assumption|left; lia].
  - intros Hin [Hlt|[Heq Hseen]]; apply Hf2; try assumption.
    + left. apply Nat.ltb_lt, Hlt.
    + right. split; [apply Nat.ltb_ge; lia|exact Hseen].
  - intro Hab. destruct (Hm1 Hab) as [Hlt|[Hge Hseen]]; [left; exact Hlt|].
    destruct (float_ltb (monetary b) (monetary a)) eqn:Hba;
      [left; reflexivity|right; repeat split; assumption].
  - intros Hin [Hlt|(Hab & Hba & Hseen)]; apply Hm2; try assumption.
    + left. exact Hlt.
    + right. split; assumption.
  - intros Hin Heq Hseen. apply Hm2; [exact Hin|]. right.
    split; [rewrite Heq; apply Hirr|exact Hseen].
Qed.

(** The rule of C8 leaves no choice: a selection of records of the RFM
    table that has the length of a top-5 table, is in the order of a
    ranking and holds whatever wins over one of its records is the
    selection the program makes for that ranking. *)
Theorem ranking_rule_determines_the_tables df (t : list (Rfm F)) :
  NoDup t -> incl t (rfm_df df) ->
  List.length t = Nat.min 5 (unique_customers df) ->
  let obeys (precedes : Rfm F -> Rfm F -> bool) :=
    (forall a b, before a b t -> ranks_ahead precedes (rfm_df df) a b) /\
    (forall a b, In a (rfm_df df) -> In b t ->
       ranks_ahead precedes (rfm_df df) a b -> In a t) in
  (obeys (fun a b => recency a <? recency b) ->
   t = nsmallest Z.ltb 5 recency (rfm_df df)) /\
  (obeys (fun a b => (frequency b <? frequency a)%nat) ->
   t = nlargest Nat.ltb 5 frequency (rfm_df df)) /\
  (obeys (fun a b => float_ltb (monetary b) (monetary a)) ->
   t = nlargest float_ltb 5 monetary (rfm_df df)).
Proof.
  intros Hnd Hincl Hlen obeys.
  assert (Hlen' : List.length t = Nat.min 5 (List.length (rfm_df df))).
  { rewrite Hlen. f_equal. unfold unique_customers.
    rewrite <- (length_map rfm_customer_id (rfm_df df)), rfm_df_customers.
    symmetry. apply group_keys_length. }
  assert (Hdec : forall x y : Rfm F, In x (rfm_df df) -> In y (rfm_df df) ->
            x = y \/ x <> y).
  { intros x y Hx Hy.
    destruct (string_dec (rfm_customer_id x) (rfm_customer_id y))
      as [Heq|Hne]; [left|right; congruence].
    apply (NoDup_map_injective rfm_customer_id (rfm_df df));
      [apply rfm_df_NoDup_customers|assumption..]. }
  unfold nsmallest, nlargest.
  split; [|split]; intros [Hord Hclosed];
    apply top_rows_unique; try assumption; try apply rfm_df_NoDup.
  - intros x y. rewrite Z.ltb_lt, Z.ltb_ge. lia.
  - intros x y z. rewrite !Z.ltb_ge. lia.
  - intros x y. rewrite Nat.ltb_lt, Nat.ltb_ge. lia.
  - intros x y z. rewrite !Nat.ltb_ge. lia.
  - intros x y. apply float_ltb_asym.
  - intros x y z Hxy Hyz. apply (float_ltb_negtrans _ _ _ Hxy Hyz).
Qed.
End TieBreak.

(** The rankings of [ranked_frame], none of which is the order of the RFM
    table: c3 and c4 have the same recency and the same frequency, and c3,
    the first of the two in the RFM table, stands above c4 in both tables;
    c7, the last of the customers with recency 1, is left out. *)
Lemma rankings_break_ties_by_table_order_ranked :
  map rfm_customer_id (rfm_df ranked_frame)
    = ["c1"; "c2"; "c3"; "c4"; "c5"; "c6"; "c7"]%string /\
  map fst (recency_df ranked_frame)
    = ["c2"; "c3"; "c4"; "c5"; "c6"]%string /\
  map fst (frequency_df ranked_frame)
    = ["c6"; "c1"; "c2"; "c3"; "c4"]%string /\
  map fst (monetary_df ranked_frame)
    = ["c3"; "c1"; "c2"; "c4"; "c5"]%string /\
  before "c3"%string "c4"%string (map fst (recency_df ranked_frame)) /\
  before "c3"%string "c4"%string (map fst (frequency_df ranked_frame)) /\
  before "c3"%string "c4"%string (map fst (monetary_df ranked_frame)).
Proof.
  do 4 (split; [vm_compute; reflexivity|]).
  assert (Hseen : before ranked_c3 ranked_c4 (rfm_df ranked_frame)).
  { exists (firstn 2 (rfm_df ranked_frame)), [],
      (skipn 4 (rfm_df ranked_frame)). vm_compute. reflexivity. }
  destruct (rankings_break_ties_by_table_order ranked_frame
              ranked_c3 ranked_c4)
    as (_ & Hr & _ & Hf & _ & Hm & _).
  - eapply before_In_l, Hseen.
  - eapply before_In_r, Hseen.
  - split; [|split].
    + apply Hr; [vm_compute; tauto|].
      right. split; [reflexivity|exact Hseen].
    + apply Hf; [vm_compute; tauto|].
      right. split; [reflexivity|exact Hseen].
    + apply Hm; [vm_compute; tauto|]. left. vm_compute. reflexivity.
Defined.

(** The five records of the recency table of [ranked_frame] are such a
    selection. *)
Lemma ranking_rule_determines_the_tables_ranked :
  map rfm_customer_id ranked_top = ["c2"; "c3"; "c4"; "c5"; "c6"]%string /\
  NoDup ranked_top /\ incl ranked_top (rfm_df ranked_frame) /\
  List.length ranked_top = Nat.min 5 (unique_customers ranked_frame) /\
  (((forall a b, before a b ranked_top ->
       ranks_ahead (fun x y => recency x <? recency y)
         (rfm_df ranked_frame) a b) /\
    (forall a b, In a (rfm_df ranked_frame) -> In b ranked_top ->
       ranks_ahead (fun x y => recency x <? recency y)
         (rfm_df ranked_frame) a b -> In a ranked_top)) ->
   ranked_top = nsmallest Z.ltb 5 recency (rfm_df ranked_frame)).
Proof.
  assert (Hnd : NoDup ranked_top).
  { apply (NoDup_map_inv rfm_customer_id). vm_compute.
    repeat constructor; simpl; intuition discriminate. }
  assert (Hincl : incl ranked_top (rfm_df ranked_frame)).
  { intros x Hx. unfold ranked_top, nsmallest in Hx.
    apply firstn_subset, sort_values_In in Hx. exact Hx. }
  assert (Hlen : List.length ranked_top
                 = Nat.min 5 (unique_customers ranked_frame))
    by (vm_compute; reflexivity).
  split; [vm_compute; reflexivity|]. do 3 (split; [assumption|]).
  apply (ranking_rule_determines_the_tables ranked_frame ranked_top
           Hnd Hincl Hlen).
Defined.

(** ** Highlighted bars of the payment chart *)

Section Highlight.
Context {F : Type} `{Float64 F} `{!FloatEq F}.
Implicit Types (df : DataFrame F).

Lemma fold_fmax_In (l : list F) (x : F) : In (fold_left fmax l x) (x :: l).
Proof.
  revert x. induction l as [|v l IH]; intro x; simpl; [left; reflexivity|].
  destruct (IH (fmax x v)) as [Heq|Hin]; [|right; right; exact Hin].
  rewrite <- Heq. unfold fmax. destruct (fltb x v);
    [right; left|left]; reflexivity.
Qed.

(** When a value is present, [max()] is one of the values present. *)
Lemma series_max_In (l : list F) (x : F) :
  In x l -> isnan x = false ->
  In (series_max l) l /\ isnan (series_max l) = false.
Proof.
  intros Hin Hx.
  assert (Hp : In x (filter notna l)).
  { apply filter_In. unfold notna. rewrite Hx. split; [exact Hin|reflexivity]. }
  unfold series_max. destruct (filter notna l) as [|y l'] eqn:Hf;
    [contradiction|].
  pose proof (fold_fmax_In l' y) as Hm. rewrite <- Hf in Hm.
  apply filter_In in Hm as [Hm Hnotna]. split; [exact Hm|].
  unfold notna in Hnotna. apply negb_true_iff in Hnotna. exact Hnotna.
Qed.

(** When every value is missing, [max()] is missing. *)
Lemma series_max_all_missing (l : list F) :
  (forall x, In x l -> isnan x = true) -> isnan (series_max l) = true.
Proof.
  intro Hall. unfold series_max.
  destruct (filter notna l) as [|y l'] eqn:Hf; [apply isnan_fnan|].
  assert (Hy : In y (filter notna l)) by (rewrite Hf; left; reflexivity).
  apply filter_In in Hy as [Hy Hnotna]. unfold notna in Hnotna.
  rewrite (Hall y Hy) in Hnotna. discriminate.
Qed.

(** The colours of the payment chart (lines 105-106): one per bar.  When
    the rate of some payment type is present, the maximum is one of the
    rates and at least one bar is highlighted.  When the subset has no
    canceled row, every rate is missing and every bar has the base
    colour. *)
Theorem payment_chart_highlight df :
  List.length (colors_tab3 df) = List.length (cancellation_rate df) /\
  ((exists k val, In (k, val) (cancellation_rate df) /\
                  isnan val = false) ->
   isnan (max_value df) = false /\
   In (max_value df) (map snd (cancellation_rate df)) /\
   In highlight_color (colors_tab3 df)) /\
  (canceled df = [] ->
   (forall k val, In (k, val) (cancellation_rate df) -> isnan val = true) /\
   (forall c, In c (colors_tab3 df) -> c = base_color)).
Proof.
  split; [unfold colors_tab3; rewrite !length_map; reflexivity|]. split.
  - intros (k & val & Hin & Hval).
    destruct (series_max_In (map snd (cancellation_rate df)) val)
      as [Hmax Hpresent]; [apply (in_map snd) in Hin; exact Hin|exact Hval|].
    fold (max_value df) in Hmax, Hpresent.
    split; [exact Hpresent|]. split; [exact Hmax|].
    unfold colors_tab3. apply in_map_iff. exists (max_value df).
    rewrite (feqb_refl _ Hpresent). split; [reflexivity|exact Hmax].
  - intro Hnone.
    assert (Hall : forall k val, In (k, val) (cancellation_rate df) ->
                     isnan val = true).
    { intros k val Hin. apply cancellation_rate_entry in Hin as [_ ->].
      unfold canceled_rows_of. rewrite Hnone. apply isnan_fmul_nan. }
    split; [exact Hall|]. intros c Hc. unfold colors_tab3 in Hc.
    apply in_map_iff in Hc as (val & <- & _).
    rewrite feqb_nan_r; [reflexivity|].
    apply series_max_all_missing. intros x Hx.
    apply in_map_iff in Hx as ([k v] & <- & Hin). apply (Hall k v Hin).
Qed.
End Highlight.

Lemma payment_chart_highlight_samples :
  (exists k val, In (k, val) (cancellation_rate tied_frame) /\
                 isnan val = false) /\
  In highlight_color (colors_tab3 tied_frame) /\
  canceled no_cancellation = [] /\
  (forall c, In c (colors_tab3 no_cancellation) -> c = base_color).
Proof.
  assert (Hsome : exists k val, In (k, val) (cancellation_rate tied_frame) /\
                                isnan val = false).
  { exists "boleto"%string, 50%float. split; vm_compute; auto. }
  split; [exact Hsome|].
  split; [apply (payment_chart_highlight tied_frame), Hsome|].
  split; [reflexivity|].
  apply (payment_chart_highlight no_cancellation). reflexivity.
Defined.

(** ** The two counts *)

Lemma unique_nil_iff (l : list string) : unique l = [] <-> l = [].
Proof. destruct l; simpl; split; congruence. Qed.

Section CountCards.
Context {F : Type} `{Float64 F}.
Implicit Types (df : DataFrame F).

(** Unique Customers (line 58) is at most the number of rows, and both
    counts of the metrics panel are 0 on an empty subset only. *)
Theorem counts_zero_only_when_empty df :
  (unique_customers df <= List.length df)%nat /\
  (unique_customers df = 0%nat <-> df = []) /\
  (total_orders df = 0%nat <-> df = []).
Proof.
  unfold unique_customers, total_orders. split; [|split].
  - rewrite <- (length_map customer_id df). apply unique_length_le.
  - rewrite length_zero_iff_nil, unique_nil_iff.
    split; [apply map_eq_nil|intros ->; reflexivity].
  - rewrite length_zero_iff_nil, unique_nil_iff.
    split; [apply map_eq_nil|intros ->; reflexivity].
Qed.
End CountCards.
